(** * oss-rebuild: the PyPI rebuilder and the caching HTTP client

    A shallow embedding of
      - [pkg/rebuild/pypi/rebuild.go]: [Rebuilder.Rebuild], the verdict
        classifier [compareTwoFiles], [Rebuilder.Compare], [RebuildMany]
        and [RebuildRemote];
      - the [http] package of the repository: [WithUserAgent.Do] and
        [CachedClient.Do].

    Go strings are byte strings and are modelled by [string]; Go's [int]
    is modelled by [Z] (the code only compares such values, so no
    wrap-around arises); an [error] value is a tree of messages; calls
    to collaborators that live outside these files are taken as
    parameters, and the state they act on is threaded explicitly. *)

From Stdlib Require Import ZArith Bool List Ascii String Lia.
From stdpp Require Import base option gmap strings list fin_maps.

Local Open Scope string_scope.
Local Open Scope list_scope.
Local Open Scope Z_scope.

(** ** Go's [strings] package *)

Module strings.

  (** [strings.HasPrefix(s, prefix)]:
      [len(s) >= len(prefix) && s[:len(prefix)] == prefix]. *)
Fixpoint HasPrefix (s prefix : string) {struct prefix} : bool :=
  match prefix, s with
  | EmptyString, _ => true
  | String _ _, EmptyString => false
  | String a p, String b t => Ascii.eqb a b && HasPrefix t p
  end.

  (** [s[n:]] for [n <= len(s)]. *)
Fixpoint drop (n : nat) (s : string) : string :=
  match n, s with
  | O, _ => s
  | S _, EmptyString => EmptyString
  | S m, String _ t => drop m t
  end.

  (** [strings.HasSuffix(s, suffix)]:
      [len(s) >= len(suffix) && s[len(s)-len(suffix):] == suffix]. *)
Definition HasSuffix (s suffix : string) : bool :=
  (String.length suffix <=? String.length s)%nat
  && String.eqb (drop (String.length s - String.length suffix) s) suffix.

  (** [strings.Index(s, substr)]: the index of the first instance of
      [substr] in [s], or [-1]; [from] is the offset of [s] in the
      string the search started on. *)
Fixpoint Index_from (from : Z) (s substr : string) : Z :=
  if HasPrefix s substr then from
  else match s with
       | EmptyString => -1
       | String _ t => Index_from (from + 1) t substr
       end.

Definition Index (s substr : string) : Z := Index_from 0 s substr.

  (** [strings.Contains(s, substr)]: [Index(s, substr) >= 0]. *)
Definition Contains (s substr : string) : bool := 0 <=? Index s substr.

End strings.

(** ** Errors ([errors] and [github.com/pkg/errors]) *)

Module errors.

  (** An error is either created with a message ([errors.New],
      [errors.Errorf]) or wraps a cause with a context message
      ([errors.Wrap], [errors.Wrapf]). *)
Inductive error : Type :=
| New (msg : string)
| Wrap (cause : error) (msg : string).

  (** The [Error()] method: a wrapped error prints as [msg: cause]. *)
Fixpoint Error (e : error) : string :=
  match e with
  | New msg => msg
  | Wrap cause msg => msg +:+ ": " +:+ Error cause
  end.

  (** [errors.Cause]: the innermost error of a chain of wrappers. *)
Fixpoint Cause (e : error) : error :=
  match e with
  | New msg => New msg
  | Wrap cause _ => Cause cause
  end.

  (** The context of the outermost wrapper, if any. *)
Definition context (e : error) : option string :=
  match e with
  | New _ => None
  | Wrap _ msg => Some msg
  end.

#[global] Instance error_eq_dec : EqDecision error.
Proof. solve_decision. Defined.

End errors.

Import errors.

(** ** Content summaries ([pkg/archive]) *)

Module archive.

  (** What [compareTwoFiles] uses of [*archive.ContentSummary]: the
      field [CRLFCount] and the method [Diff], whose three results are
      the paths only in the receiver, the paths in both with differing
      content, and the paths only in the argument. The declaration is
      outside the files embedded here, so the classifier is stated over
      every type that offers the two. *)
Class Summary (CS : Type) : Type := {
  CRLFCount : CS -> Z;
  Diff : CS -> CS -> list string * list string * list string
}.

  (** Modelled from the spec: the [ContentSummary] record of
      [pkg/archive], which is not among the embedded files: "set of file
      paths with content hashes/sizes, plus a count of CRLF line-ending
      occurrences". [Files] maps a path to its content hash. *)
Record ContentSummary : Type := {
  Files : gmap string string;
  CRLFs : Z
}.

  (** Modelled from the spec: [ContentSummary.Diff] of [pkg/archive]:
      "files present only upstream, only in rebuild, and files present
      in both with differing content", for a receiver [cs] and an
      argument [other]. *)
Definition ContentSummary_Diff (cs other : ContentSummary)
  : list string * list string * list string :=
  let leftOnly := filter (fun f => Files other !! f = None) (elements (dom (Files cs))) in
  let diffs := filter (fun f => is_Some (Files other !! f)
                                ∧ Files other !! f ≠ Files cs !! f)
                      (elements (dom (Files cs))) in
  let rightOnly := filter (fun f => Files cs !! f = None) (elements (dom (Files other))) in
  (leftOnly, diffs, rightOnly).

#[global] Instance ContentSummary_Summary : Summary ContentSummary := {
  CRLFCount := CRLFs;
  Diff := ContentSummary_Diff
}.

End archive.

(** ** State passing *)

Module state.

  (** A computation that reads and updates a state [St] and returns an
      [A]; Go's [(value, error)] results are sums [A + error]. *)
Definition M (St A : Type) : Type := St -> St * A.

Definition ret {St A} (a : A) : M St A := fun s => (s, a).

Definition bind {St A B} (c : M St A) (k : A -> M St B) : M St B :=
  fun s => let '(s', a) := c s in k a s'.

End state.

Notation "x <~ c ;; k" := (state.bind c (fun x => k))
  (at level 100, c at next level, right associativity).

(** ** The generic rebuild package ([pkg/rebuild/rebuild]) *)

Module rebuild.

  (** The declarations of this package are outside the embedded files;
      the records below carry the fields that [pypi/rebuild.go] and the
      API service test use. *)
Record Target : Type := {
  Ecosystem : string;
  Package : string;
  Version : string;
  Artifact : string
}.

Record Instructions : Type := {
  Source : string;
  Deps : string;
  Build : string
}.

Record Asset : Type := {
  AssetType : string;
  AssetTarget : Target
}.

  (** [Input] has a [Target]; [InputRest] stands for its other fields. *)
Record Input (R : Type) : Type := {
  InputTarget : Target;
  InputRest : R
}.
Arguments InputTarget {R} _.
Arguments InputRest {R} _.

  (** [RemoteOptions] has a [UseTimewarp] flag; [OptionsRest] stands for
      its other fields. *)
Record RemoteOptions (O : Type) : Type := {
  UseTimewarp : bool;
  OptionsRest : O
}.
Arguments UseTimewarp {O} _.
Arguments OptionsRest {O} _.

  (** The calls that leave [pypi/rebuild.go]. *)
Inductive call (R O : Type) : Type :=
| ExecuteScriptCall (dir script : string)
| SummarizeCall (t : Target) (rb up : Asset)
| ProjectCall (pkg : string)
| RebuildManyCall (inputs : list (Input R))
| RebuildRemoteCall (input : Input R) (id : string) (opts : RemoteOptions O).
Arguments ExecuteScriptCall {R O} _ _.
Arguments SummarizeCall {R O} _ _ _.
Arguments ProjectCall {R O} _.
Arguments RebuildManyCall {R O} _.
Arguments RebuildRemoteCall {R O} _ _ _.

  (** The state a rebuild runs in: the outside world (file systems,
      processes, network, asset stores), of which nothing is assumed,
      and the record of the calls made so far, oldest first. The record
      is specification state: the code does not read it. *)
Record Host (World R O : Type) : Type := {
  world : World;
  calls : list (call R O)
}.
Arguments world {World R O} _.
Arguments calls {World R O} _.

  (** A call to a collaborator [f]: it acts on the world and the call is
      recorded. *)
Definition invoke {World R O X} (c : call R O) (f : World -> World * X)
  : state.M (Host World R O) X :=
  fun h => let '(w, x) := f (world h) in
           ({| world := w; calls := calls h ++ [c] |}, x).

  (** The host [h] after the given scripts were run in [dir], in this
      order and with nothing else called, and left the world [w]. *)
Definition ran {World R O} (h : Host World R O) (dir : string)
    (scripts : list string) (w : World) : Host World R O :=
  {| world := w; calls := calls h ++ map (ExecuteScriptCall dir) scripts |}.

End rebuild.

(** ** The PyPI registry ([pkg/registry/pypi]) *)

Module pypireg.

  (** The fields of the registry's JSON that the API service test shows. *)
Record Artifact : Type := {
  Filename : string;
  URL : string
}.

Record Project : Type := {
  Releases : gmap string (list Artifact)
}.

  (** [project.Releases[version]]: a missing key gives the [nil] slice. *)
Definition release (project : Project) (version : string) : list Artifact :=
  default [] (Releases project !! version).

End pypireg.

(** ** The PyPI rebuilder ([pkg/rebuild/pypi/rebuild.go]) *)

Module pypi.

Import strings archive state rebuild pypireg.

  (** The package-level verdict values. *)
Definition verdictDSStore : error := New ".DS_STORE file(s) found in upstream but not rebuild".
Definition verdictLineEndings : error := New "Excess CRLF line endings found in upstream".
Definition verdictMismatchedFiles : error := New "mismatched file(s) in upstream and rebuild".
Definition verdictUpstreamOnly : error := New "file(s) found in upstream but not rebuild".
Definition verdictRebuildOnly : error := New "file(s) found in rebuild but not upstream".
Definition verdictWheelDiff : error := New "wheel metadata mismatch".
Definition verdictContentDiff : error := New "content differences found".

Definition verdicts : list error :=
  [verdictDSStore; verdictLineEndings; verdictMismatchedFiles;
   verdictUpstreamOnly; verdictRebuildOnly; verdictWheelDiff;
   verdictContentDiff].

  (** [len(l)] as a Go [int]. *)
Definition len {A} (l : list A) : Z := Z.of_nat (length l).

  (** The first loop of [compareTwoFiles]:
      [for _, f := range upOnly { if HasSuffix(f, "/.DS_STORE") { foundDSStore = true } }]. *)
Definition foundDSStore_loop (upOnly : list string) : bool :=
  fold_left (fun found f => if HasSuffix f "/.DS_STORE" then true else found)
            upOnly false.

  (** The second loop:
      [for _, f := range diffs { onlyMetadataDiffs = onlyMetadataDiffs && Contains(f, ".dist-info/") }]. *)
Definition onlyMetadataDiffs_loop (init : bool) (diffs : list string) : bool :=
  fold_left (fun only f => only && Contains f ".dist-info/") diffs init.

  (** [compareTwoFiles(csRB, csUP)], returning [(verdict, err)]; [None]
      is Go's [nil]. The [log.Println] of the three lists is left out:
      it writes to the process log and does not affect the result. *)
Definition compareTwoFiles {CS} `{Summary CS} (csRB csUP : CS)
  : option error * option error :=
  let '(upOnly, diffs, rbOnly) := Diff csUP csRB in
  let foundDSStore := foundDSStore_loop upOnly in
  let onlyMetadataDiffs :=
    onlyMetadataDiffs_loop
      ((len upOnly =? 0) && (len rbOnly =? 0) && (len diffs >? 0)) diffs in
  if foundDSStore then (Some verdictDSStore, None)
  else if CRLFCount csUP >? CRLFCount csRB then (Some verdictLineEndings, None)
  else if (len upOnly >? 0) && (len rbOnly >? 0) then (Some verdictMismatchedFiles, None)
  else if len upOnly >? 0 then (Some verdictUpstreamOnly, None)
  else if len rbOnly >? 0 then (Some verdictRebuildOnly, None)
  else if onlyMetadataDiffs then (Some verdictWheelDiff, None)
  else if len diffs >? 0 then (Some verdictContentDiff, None)
  else (None, None).

Section Rebuilder.

Context {World R O : Type}.

  (** [rebuild.ExecuteScript(ctx, dir, script)]: runs a script in a
      directory and returns its output or an error. *)
Variable ExecuteScript : string -> string -> World -> World * (string + error).

  (** [Rebuilder.Rebuild(ctx, t, inst, projectfs)]; [root] is
      [projectfs.Root()]. *)
Definition Rebuild (t : Target) (inst : Instructions) (root : string)
  : M (Host World R O) (option error) :=
  r <~ invoke (ExecuteScriptCall root (Source inst)) (ExecuteScript root (Source inst));;
  match r with
  | inr err => ret (Some (Wrap err "fetching source"))
  | inl _ =>
    r <~ invoke (ExecuteScriptCall root (Deps inst)) (ExecuteScript root (Deps inst));;
    match r with
    | inr err => ret (Some (Wrap err "configuring build deps"))
    | inl _ =>
      r <~ invoke (ExecuteScriptCall root (Build inst)) (ExecuteScript root (Build inst));;
      match r with
      | inr err => ret (Some (Wrap err "executing build"))
      | inl _ => ret None
      end
    end
  end.

Context {CS : Type} `{Summary CS}.

  (** [rebuild.Summarize(ctx, t, rb, up, assets)]: the summaries of the
      rebuilt and of the upstream asset, or an error. *)
Variable Summarize : Target -> Asset -> Asset -> World -> World * (CS * CS + error).

  (** The [%v] rendering of an asset by [fmt]. *)
Variable fmt_v : Asset -> string.

  (** [Rebuilder.Compare(ctx, t, rb, up, assets, _)], returning
      [(verdict, err)]. [log.Printf] of the verdict is left out. *)
Definition Compare (t : Target) (rb up : Asset)
  : M (Host World R O) (option error * option error) :=
  r <~ invoke (SummarizeCall t rb up) (Summarize t rb up);;
  match r with
  | inr err => ret (None, Some (Wrap err "summarizing assets"))
  | inl (csRB, csUP) =>
    let '(verdict, err) := compareTwoFiles csRB csUP in
    match err with
    | Some err =>
      ret (None, Some (Wrap err ("Failed to compare " +:+ fmt_v rb +:+ " to " +:+ fmt_v up)))
    | None => ret (verdict, None)
    end
  end.

  (** [mux.PyPI.Project(pkg)]: the registry's record of a package. *)
Variable Project_of : string -> World -> World * (Project + error).

  (** [FindPureWheel(artifacts)], of this package but outside the
      embedded files: the artifact to rebuild, or an error. *)
Variable FindPureWheel : list Artifact -> Artifact + error.

  (** [rebuild.RebuildMany(ctx, rebuilder, inputs, mux)]. *)
Context {Verdict : Type}.
Variable generic_RebuildMany :
  list (Input R) -> World -> World * (list Verdict + error).

  (** [inputs[i].Target.Artifact = filename]. *)
Definition setArtifact (input : Input R) (filename : string) : Input R :=
  {| InputTarget :=
       {| Ecosystem := Ecosystem (InputTarget input);
          Package := Package (InputTarget input);
          Version := Version (InputTarget input);
          rebuild.Artifact := filename |};
     InputRest := InputRest input |}.

  (** The loop of [RebuildMany] over [inputs], which updates the
      caller's slice in place: the slice as the loop leaves it, and the
      error of the first input without a wheel, if any. *)
Fixpoint findWheels (project : Project) (inputs : list (Input R))
  : list (Input R) * option error :=
  match inputs with
  | [] => ([], None)
  | input :: rest =>
    match FindPureWheel (release project (Version (InputTarget input))) with
    | inr _ =>
      (input :: rest,
       Some (New (Version (InputTarget input) +:+ " does not have a none-any wheel")))
    | inl a =>
      let '(rest', err) := findWheels project rest in
      (setArtifact input (Filename a) :: rest', err)
    end
  end.

  (** [RebuildMany(ctx, inputs, mux)]: the caller's slice as the
      function leaves it, and the result [(verdicts, err)]. *)
Definition RebuildMany (inputs : list (Input R))
  : M (Host World R O) (list (Input R) * (list Verdict + error)) :=
  match inputs with
  | [] => ret (inputs, inr (New "no inputs provided"))
  | input0 :: _ =>
    p <~ invoke (ProjectCall (Package (InputTarget input0)))
                (Project_of (Package (InputTarget input0)));;
    match p with
    | inr err => ret (inputs, inr err)
    | inl project =>
      match findWheels project inputs with
      | (inputs', Some err) => ret (inputs', inr err)
      | (inputs', None) =>
        r <~ invoke (RebuildManyCall inputs') (generic_RebuildMany inputs');;
        ret (inputs', r)
      end
    end
  end.

  (** [rebuild.RebuildRemote(ctx, input, id, opts)]. *)
Variable generic_RebuildRemote :
  Input R -> string -> RemoteOptions O -> World -> World * option error.

  (** [RebuildRemote(ctx, input, id, opts)]: [opts] is the function's
      own copy of the caller's struct. *)
Definition RebuildRemote (input : Input R) (id : string) (opts : RemoteOptions O)
  : M (Host World R O) (option error) :=
  let opts := {| UseTimewarp := true; OptionsRest := OptionsRest opts |} in
  invoke (RebuildRemoteCall input id opts) (generic_RebuildRemote input id opts).

End Rebuilder.

  (** Modelled from the spec: [FindPureWheel], which is outside the
      embedded files, for a file-type convention [pure]: the first
      artifact that matches the convention, and an error when there is
      "no artifact matching the required file-type convention". *)
Definition FindPureWheel_by (pure : Artifact -> bool) (artifacts : list Artifact)
  : Artifact + error :=
  match List.find pure artifacts with
  | Some a => inl a
  | None => inr (New "file does not exist")
  end.

End pypi.

(** ** The caching HTTP client (package [http] of the repository) *)

Module httpx.

Import state.

  (** What the client uses of [*http.Request]: the method and
      [req.URL.String()]. *)
Record Request : Type := {
  Method : string;
  URL : string
}.

  (** What the client uses of [*http.Response]. *)
Record Response : Type := {
  Status : string;
  StatusCode : Z;
  Body : string
}.

Definition MethodGet : string := "GET".
Definition MethodHead : string := "HEAD".
Definition StatusOK : Z := 200.

  (** A value of Go's [any] as the cache holds it: a [[]byte], or a
      value of another type. *)
Inductive any : Type :=
| Bytes (b : string)
| NotBytes.

  (** The calls that leave [CachedClient.Do]. *)
Inductive call : Type :=
| DoCall (req : Request)
| GetOrSetCall (key : string).

  (** The state a request runs in: the network, of which nothing is
      assumed, the entries of the cache, and the record of the calls
      made so far, oldest first (specification state). *)
Record Net (World : Type) : Type := {
  world : World;
  entries : gmap string any;
  calls : list call
}.
Arguments world {World} _.
Arguments entries {World} _.
Arguments calls {World} _.

  (** What a Go call does: it returns, or it panics. *)
Inductive outcome (A : Type) : Type :=
| Returns (a : A)
| Panics.
Arguments Returns {A} _.
Arguments Panics {A}.

Section CachedClient.

Context {World : Type}.

Definition record (c : call) : M (Net World) unit :=
  fun n => ({| world := world n; entries := entries n; calls := calls n ++ [c] |}, tt).

Definition store (key : string) (v : any) : M (Net World) unit :=
  fun n => ({| world := world n; entries := <[key := v]> (entries n); calls := calls n |}, tt).

  (** Modelled from the spec: [cache.Cache.GetOrSet] of [internal/cache],
      which is outside the embedded files, for one caller at a time:
      "If key is already cached, returns the cached value without
      invoking compute. Otherwise [...] executes compute"; "Failure from
      compute is NOT cached". *)
Definition GetOrSet (key : string) (compute : M (Net World) (any + error))
  : M (Net World) (any + error) :=
  _ <~ record (GetOrSetCall key);;
  fun n =>
    match entries n !! key with
    | Some v => (n, inl v)
    | None =>
      (r <~ compute;;
       match r with
       | inl v => _ <~ store key v;; ret (inl v)
       | inr err => ret (inr err)
       end) n
    end.

  (** [cc.BasicClient.Do(req)]: the underlying client. *)
Variable BasicClient_Do : Request -> World -> World * (Response + error).

  (** [resp.Write(foo)] followed by [foo.Bytes()]: the wire form of a
      response (status line, headers and body), or an error. *)
Variable Write : Response -> string + error.

  (** [http.ReadResponse(bufio.NewReader(bytes.NewReader(b)), req)]. *)
Variable ReadResponse : string -> Request -> Response + error.

Definition underlying (req : Request) : M (Net World) (Response + error) :=
  _ <~ record (DoCall req);;
  fun n => let '(w, r) := BasicClient_Do req (world n) in
           ({| world := w; entries := entries n; calls := calls n |}, r).

  (** The function literal passed to [GetOrSet], for an underlying
      client that keeps the contract of [net/http]: with a nil error it
      returns a response whose [Body] is not nil. The deferred
      [resp.Body.Close()] is left out; on a nil response or a nil
      [Body], which have no counterpart here, the code panics. *)
Definition fetch (req : Request) : M (Net World) (any + error) :=
  r <~ underlying req;;
  match r with
  | inr err => ret (inr err)
  | inl resp =>
    if negb (StatusCode resp =? StatusOK) then ret (inr (New (Status resp)))
    else match Write resp with
         | inr err => ret (inr err)
         | inl b => ret (inl (Bytes b))
         end
  end.

  (** [CachedClient.Do(req)]. The type assertion [respBytes.([]byte)]
      panics on a cached value that is not a [[]byte]. *)
Definition Do (req : Request) : M (Net World) (outcome (Response + error)) :=
  if negb (String.eqb (Method req) MethodGet) && negb (String.eqb (Method req) MethodHead)
  then r <~ underlying req;; ret (Returns r)
  else
    r <~ GetOrSet (URL req) (fetch req);;
    match r with
    | inr err => ret (Returns (inr err))
    | inl (Bytes b) => ret (Returns (ReadResponse b req))
    | inl NotBytes => ret Panics
    end.

End CachedClient.

End httpx.

(** ** The User-Agent client (package [http] of the repository) *)

Module WithUserAgent.

Import state httpx.

  (** What a request runs in here: the [Header] map of the request,
      which the caller and every client share through the pointer
      [req], and the network. [None] is the [nil] map of a request
      built without a header. *)
Record Conn (World : Type) : Type := {
  header : option (gmap string (list string));
  net : World
}.
Arguments header {World} _.
Arguments net {World} _.

Section Client.

Context {World : Type}.

  (** [req.Header.Set(key, value)] for a key in canonical form, as
      [User-Agent] is: [h[key] = []string{value}], which panics on a
      [nil] map. *)
Definition Header_Set (key value : string) : M (Conn World) (outcome unit) :=
  fun c =>
    match header c with
    | None => (c, Panics)
    | Some h => ({| header := Some (<[key := [value]]> h); net := net c |}, Returns tt)
    end.

  (** [c.BasicClient.Do(req)]: the embedded client. *)
Variable BasicClient_Do : Request -> M (Conn World) (outcome (Response + error)).

  (** [c.UserAgent]. *)
Variable UserAgent : string.

  (** [WithUserAgent.Do(req)]. *)
Definition Do (req : Request) : M (Conn World) (outcome (Response + error)) :=
  r <~ Header_Set "User-Agent" UserAgent;;
  match r with
  | Panics => ret Panics
  | Returns _ => BasicClient_Do req
  end.

End Client.

End WithUserAgent.

(** ** Sample data *)

Module samples.

Import archive.

Definition summary (files : list (string * string)) (crlf : Z) : ContentSummary :=
  {| Files := list_to_map files; CRLFs := crlf |}.

  (** The wheels of the API service test: one file [foo], and one file
      [totally-not-foo]. *)
Definition wheel_foo : ContentSummary := summary [("foo", "foo")] 0.
Definition wheel_not_foo : ContentSummary :=
  summary [("totally-not-foo", "not-in-the-least-foo")] 0.

  (** A wheel of two modules and its metadata. *)
Definition wheel : ContentSummary :=
  summary [("pkg/a.py", "a1"); ("pkg/b.py", "b1");
           ("pkg-1.0.dist-info/RECORD", "r1")] 0.

  (** The same with a Finder file added and three CRLF line endings. *)
Definition wheel_macos : ContentSummary :=
  summary [("pkg/a.py", "a1"); ("pkg/b.py", "b1");
           ("pkg-1.0.dist-info/RECORD", "r1"); ("pkg/.DS_STORE", "d1")] 3.

  (** The same as [wheel] with a Finder file at the root of the archive. *)
Definition wheel_macos_root : ContentSummary :=
  summary [("pkg/a.py", "a1"); ("pkg/b.py", "b1");
           ("pkg-1.0.dist-info/RECORD", "r1"); (".DS_STORE", "d1")] 0.

  (** The same as [wheel] without [pkg/b.py]. *)
Definition wheel_less : ContentSummary :=
  summary [("pkg/a.py", "a1"); ("pkg-1.0.dist-info/RECORD", "r1")] 0.

  (** The same as [wheel] with another [RECORD]. *)
Definition wheel_record : ContentSummary :=
  summary [("pkg/a.py", "a1"); ("pkg/b.py", "b1");
           ("pkg-1.0.dist-info/RECORD", "r2")] 0.

  (** The same as [wheel_record] with another [pkg/a.py] too. *)
Definition wheel_edited : ContentSummary :=
  summary [("pkg/a.py", "a2"); ("pkg/b.py", "b1");
           ("pkg-1.0.dist-info/RECORD", "r2")] 0.

  (** Summaries whose [Diff] lists the paths in the opposite order. *)
Definition backwards : Summary ContentSummary :=
  {| CRLFCount := CRLFs;
     Diff cs other :=
       let '(leftOnly, diffs, rightOnly) := ContentSummary_Diff cs other in
       (rev leftOnly, rev diffs, rev rightOnly) |}.

  (** The target of the API service test. *)
Definition absl : rebuild.Target :=
  {| rebuild.Ecosystem := "pypi"; rebuild.Package := "absl-py";
     rebuild.Version := "2.0.0";
     rebuild.Artifact := "absl_py-2.0.0-py3-none-any.whl" |}.

  (** A script runner whose world is the list of the scripts run so far,
      oldest first, and in which the script [exit 1] fails. *)
Definition sh (dir script : string) (ran : list string)
  : list string * (string + error) :=
  ((ran ++ [script])%list,
   if String.eqb script "exit 1" then inr (New "exit status 1") else inl "").

Definition checkout : string := "git checkout --force 'v2.0.0'".
Definition build_wheel : string := "python3 -m build --wheel".

Definition host0 {World} (w : World) : rebuild.Host World unit unit :=
  {| rebuild.world := w; rebuild.calls := [] |}.

Definition deps_fail : rebuild.Instructions :=
  {| rebuild.Source := checkout; rebuild.Deps := "exit 1";
     rebuild.Build := build_wheel |}.

  (** An asset store that holds a summary per asset type; summarizing
      fails when one of the two assets is missing. *)
Definition summarize (t : rebuild.Target) (rb up : rebuild.Asset)
    (assets : gmap string ContentSummary)
  : gmap string ContentSummary * (ContentSummary * ContentSummary + error) :=
  match assets !! rebuild.AssetType rb, assets !! rebuild.AssetType up with
  | Some csRB, Some csUP => (assets, inl (csRB, csUP))
  | _, _ => (assets, inr (New "asset not found"))
  end.

Definition rebuilt : rebuild.Asset :=
  {| rebuild.AssetType := "rebuild"; rebuild.AssetTarget := absl |}.
Definition upstream : rebuild.Asset :=
  {| rebuild.AssetType := "upstream"; rebuild.AssetTarget := absl |}.

Definition show (a : rebuild.Asset) : string := rebuild.AssetType a.

  (** A registry that knows one project, with a source distribution of
      version 1.0 and the wheel of the API service test. *)
Definition sdist_1_0 : pypireg.Artifact :=
  {| pypireg.Filename := "absl-py-1.0.tar.gz";
     pypireg.URL := "https://files.pythonhosted.org/packages/79/c9/abcd.../absl-py-1.0.tar.gz" |}.

Definition wheel_2_0_0 : pypireg.Artifact :=
  {| pypireg.Filename := "absl_py-2.0.0-py3-none-any.whl";
     pypireg.URL := "https://files.pythonhosted.org/packages/01/e4/abcd.../absl_py-2.0.0-py3-none-any.whl" |}.

Definition absl_project : pypireg.Project :=
  {| pypireg.Releases := {["1.0" := [sdist_1_0]; "2.0.0" := [wheel_2_0_0]]} |}.

Definition registry (pkg : string) (w : unit) : unit * (pypireg.Project + error) :=
  (w, if String.eqb pkg "absl-py" then inl absl_project
      else inr (New "pypi registry error: 404 Not Found")).

  (** A file-type test in the role of the wheel convention. *)
Definition none_any (a : pypireg.Artifact) : bool :=
  strings.HasSuffix (pypireg.Filename a) "-none-any.whl".

Definition of_version (v : string) : rebuild.Input unit :=
  {| rebuild.InputTarget :=
       {| rebuild.Ecosystem := "pypi"; rebuild.Package := "absl-py";
          rebuild.Version := v; rebuild.Artifact := "" |};
     rebuild.InputRest := tt |}.

  (** An input of a package that the registry does not know. *)
Definition requests_2_31 : rebuild.Input unit :=
  {| rebuild.InputTarget :=
       {| rebuild.Ecosystem := "pypi"; rebuild.Package := "requests";
          rebuild.Version := "2.31.0"; rebuild.Artifact := "" |};
     rebuild.InputRest := tt |}.

  (** A generic rebuild that answers with the artifact names. *)
Definition rebuild_all (inputs : list (rebuild.Input unit)) (w : unit)
  : unit * (list string + error) :=
  (w, inl (map (fun i => rebuild.Artifact (rebuild.InputTarget i)) inputs)).

  (** An origin server that knows one URL; its world is the list of the
      requests it has received, oldest first. *)
Definition absl_json : string := "https://pypi.org/pypi/absl-py/2.0.0/json".

Definition origin (req : httpx.Request) (received : list httpx.Request)
  : list httpx.Request * (httpx.Response + error) :=
  (received ++ [req],
   if String.eqb (httpx.URL req) absl_json
   then inl {| httpx.Status := "200 OK"; httpx.StatusCode := 200;
               httpx.Body := "{}" |}
   else inl {| httpx.Status := "404 Not Found"; httpx.StatusCode := 404;
               httpx.Body := "" |}).

  (** A wire form that is the status line followed by the body, and a
      reader that takes the whole wire form for the body. *)
Definition wire (resp : httpx.Response) : string + error :=
  inl ("HTTP/1.1 " +:+ httpx.Status resp +:+ " " +:+ httpx.Body resp).

Definition unwire (b : string) (req : httpx.Request) : httpx.Response + error :=
  inl {| httpx.Status := "200 OK"; httpx.StatusCode := 200; httpx.Body := b |}.

Definition get (url : string) : httpx.Request :=
  {| httpx.Method := "GET"; httpx.URL := url |}.
Definition post (url : string) : httpx.Request :=
  {| httpx.Method := "POST"; httpx.URL := url |}.

Definition head (url : string) : httpx.Request :=
  {| httpx.Method := "HEAD"; httpx.URL := url |}.

Definition absl_0_0_0_json : string := "https://pypi.org/pypi/absl-py/0.0.0/json".

  (** A network that is down, and a response that cannot be written out. *)
Definition offline (req : httpx.Request) (received : list httpx.Request)
  : list httpx.Request * (httpx.Response + error) :=
  (received, inr (New "dial tcp: connect: connection refused")).

Definition unwritable (resp : httpx.Response) : string + error :=
  inr (New "http: Request.ContentLength=2 with Body length 0").

Definition net0 : httpx.Net (list httpx.Request) :=
  {| httpx.world := []; httpx.entries := ∅; httpx.calls := [] |}.

  (** The same with a response stored under [absl_json]. *)
Definition net1 : httpx.Net (list httpx.Request) :=
  {| httpx.world := [];
     httpx.entries := {[absl_json := httpx.Bytes "HTTP/1.1 200 OK {}"]};
     httpx.calls := [] |}.

  (** The same with a value of another type stored under [absl_json]. *)
Definition net_foreign : httpx.Net (list httpx.Request) :=
  {| httpx.world := [];
     httpx.entries := {[absl_json := httpx.NotBytes]};
     httpx.calls := [] |}.

  (** An embedded client that answers with the User-Agent it was sent. *)
Definition echo_agent (req : httpx.Request) (c : WithUserAgent.Conn unit)
  : WithUserAgent.Conn unit * httpx.outcome (httpx.Response + error) :=
  (c, httpx.Returns (inl {| httpx.Status := "200 OK"; httpx.StatusCode := 200;
                            httpx.Body :=
                              match WithUserAgent.header c with
                              | Some h => match h !! "User-Agent" with
                                          | Some [agent] => agent
                                          | _ => ""
                                          end
                              | None => ""
                              end |})).

End samples.

(** * Properties *)

(** ** What the string functions decide *)

Module strings_facts.

Import strings.

#[local] Arguments String.append !_ _ / : simpl nomatch.

Lemma HasPrefix_app (p t : string) : HasPrefix (p +:+ t) p = true.
Proof.
  induction p as [|a p IH]; simpl; [done|].
  by rewrite Ascii.eqb_refl.
Qed.

Lemma HasPrefix_inv (s p : string) :
  HasPrefix s p = true -> exists t, s = p +:+ t.
Proof.
  revert s; induction p as [|a p IH]; intros s Hs; simpl in *.
  - by exists s.
  - destruct s as [|b s]; [done|].
    apply andb_true_iff in Hs as [Hab Hs].
    apply Ascii.eqb_eq in Hab as ->.
    destruct (IH _ Hs) as [t ->]. by exists t.
Qed.

  (** [HasPrefix] decides that the string starts with the prefix. *)
Lemma HasPrefix_spec (s p : string) :
  HasPrefix s p = true <-> exists t, s = p +:+ t.
Proof.
  split; [apply HasPrefix_inv|]. intros [t ->]. apply HasPrefix_app.
Qed.

Lemma length_app (s t : string) :
  String.length (s +:+ t) = (String.length s + String.length t)%nat.
Proof. induction s as [|a s IH]; simpl; [done|]. by rewrite IH. Qed.

Lemma app_assoc (s t u : string) : (s +:+ t) +:+ u = s +:+ t +:+ u.
Proof. induction s as [|a s IH]; simpl; [done|]. by rewrite IH. Qed.

Lemma drop_app (s t : string) : drop (String.length s) (s +:+ t) = t.
Proof. induction s as [|a s IH]; simpl; [by destruct t|done]. Qed.

  (** A string is what [drop] removes followed by what it leaves. *)
Lemma drop_split (n : nat) (s : string) :
  exists p, s = p +:+ drop n s.
Proof.
  revert s; induction n as [|n IH]; intros s.
  - exists "". by destruct s.
  - destruct s as [|a s]; [by exists ""|].
    destruct (IH s) as [p Hp]. exists (String a p). simpl. by rewrite <- Hp.
Qed.

  (** [HasSuffix] decides that the string ends with the suffix. *)
Lemma HasSuffix_spec (s suffix : string) :
  HasSuffix s suffix = true <-> exists p, s = p +:+ suffix.
Proof.
  unfold HasSuffix; split.
  - intros [_ Heq]%andb_true_iff. apply String.eqb_eq in Heq.
    destruct (drop_split (String.length s - String.length suffix) s) as [p Hp].
    exists p. by rewrite <- Heq.
  - intros [p ->]. rewrite length_app. apply andb_true_iff; split.
    + apply Nat.leb_le. lia.
    + replace (String.length p + String.length suffix - String.length suffix)%nat
        with (String.length p) by lia.
      rewrite drop_app. apply String.eqb_refl.
Qed.

Lemma Index_from_range (from : Z) (s substr : string) :
  Index_from from s substr = -1 \/ from <= Index_from from s substr.
Proof.
  revert from; induction s as [|a s IH]; intros from; simpl.
  - destruct (HasPrefix "" substr); [right; lia | by left].
  - destruct (HasPrefix (String a s) substr); [right; lia|].
    destruct (IH (from + 1)) as [->|Hle]; [by left | right; lia].
Qed.

Lemma Index_from_found (from : Z) (s substr : string) :
  0 <= from ->
  (0 <= Index_from from s substr <-> exists p q, s = p +:+ substr +:+ q).
Proof.
  revert from; induction s as [|a s IH]; intros from Hfrom; simpl.
  - destruct (HasPrefix "" substr) eqn:Hp.
    + split; [intros _ | lia].
      apply HasPrefix_inv in Hp as [t Ht]. by exists "", t.
    + split; [lia|]. intros (p & q & Hpq).
      destruct p; [|done]. simpl in Hpq.
      assert (HasPrefix "" substr = true) by (apply HasPrefix_spec; eauto).
      congruence.
  - destruct (HasPrefix (String a s) substr) eqn:Hp.
    + split; [intros _ | lia].
      apply HasPrefix_inv in Hp as [t Ht]. by exists "", t.
    + rewrite (IH (from + 1)) by lia. split.
      * intros (p & q & ->). by exists (String a p), q.
      * intros (p & q & Hpq). destruct p as [|b p]; simpl in Hpq.
        -- assert (HasPrefix (String a s) substr = true)
             by (apply HasPrefix_spec; eauto).
           congruence.
        -- injection Hpq as _ ->. by exists p, q.
Qed.

  (** [Contains] decides that the substring occurs in the string. *)
Lemma Contains_spec (s substr : string) :
  Contains s substr = true <-> exists p q, s = p +:+ substr +:+ q.
Proof.
  unfold Contains, Index. rewrite Z.leb_le. by apply Index_from_found.
Qed.

End strings_facts.

(** ** The verdict classifier *)

Module classifier.

Import strings archive pypi.

Lemma len_pos {A} (l : list A) : (len l >? 0) = negb (bool_decide (l = [])).
Proof. by destruct l. Qed.

Lemma len_zero {A} (l : list A) : (len l =? 0) = bool_decide (l = []).
Proof. by destruct l. Qed.

  (** The first loop finds out whether some path ends in [/.DS_STORE]. *)
Lemma foundDSStore_loop_existsb (upOnly : list string) :
  foundDSStore_loop upOnly = existsb (fun f => HasSuffix f "/.DS_STORE") upOnly.
Proof.
  unfold foundDSStore_loop.
  assert (Hgen : forall l acc,
    fold_left (fun found f => if HasSuffix f "/.DS_STORE" then true else found) l acc
    = acc || existsb (fun f => HasSuffix f "/.DS_STORE") l).
  { induction l as [|f l IH]; intros acc; simpl.
    - by rewrite orb_false_r.
    - rewrite IH. destruct (HasSuffix f "/.DS_STORE"), acc; simpl; auto. }
  by rewrite Hgen.
Qed.

  (** The second loop keeps its initial value only when every path
      contains [.dist-info/]. *)
Lemma onlyMetadataDiffs_loop_forallb (init : bool) (diffs : list string) :
  onlyMetadataDiffs_loop init diffs
  = init && forallb (fun f => Contains f ".dist-info/") diffs.
Proof.
  unfold onlyMetadataDiffs_loop. revert init.
  induction diffs as [|f l IH]; intros init; simpl.
  - by rewrite andb_true_r.
  - rewrite IH. by rewrite andb_assoc.
Qed.

Lemma foundDSStore_loop_true (upOnly : list string) (f : string) :
  In f upOnly -> HasSuffix f "/.DS_STORE" = true -> foundDSStore_loop upOnly = true.
Proof.
  intros Hin Hf. rewrite foundDSStore_loop_existsb.
  apply existsb_exists. eauto.
Qed.

Lemma foundDSStore_loop_false (upOnly : list string) :
  Forall (fun f => HasSuffix f "/.DS_STORE" = false) upOnly ->
  foundDSStore_loop upOnly = false.
Proof.
  intros Hall. rewrite foundDSStore_loop_existsb.
  induction Hall as [|f l Hf _ IH]; simpl; [done|]. by rewrite Hf, IH.
Qed.

Section Verdicts.

Context {CS : Type} {HS : Summary CS}.

  (** The classifier never returns an error of its own. *)
Lemma compareTwoFiles_err_nil (csRB csUP : CS) :
  (compareTwoFiles csRB csUP).2 = None.
Proof.
  unfold compareTwoFiles. destruct (Diff csUP csRB) as [[upOnly diffs] rbOnly].
  repeat case_match; done.
Qed.

  (** When a verdict is returned, it is one of the seven verdict values. *)
Lemma compareTwoFiles_verdict (csRB csUP : CS) (v : error) :
  (compareTwoFiles csRB csUP).1 = Some v -> In v verdicts.
Proof.
  unfold compareTwoFiles. destruct (Diff csUP csRB) as [[upOnly diffs] rbOnly].
  repeat case_match; simpl; intros [= <-]; unfold verdicts; simpl; tauto.
Qed.

End Verdicts.

  (** The seven verdict values are pairwise distinct. *)
Lemma verdicts_NoDup : NoDup verdicts.
Proof. by apply (bool_decide_unpack _); vm_compute. Qed.

Section Claims.

Context {CS : Type} {HS : Summary CS}.

Variables (csRB csUP : CS) (upOnly diffs rbOnly : list string).
Hypothesis HDiff : Diff csUP csRB = (upOnly, diffs, rbOnly).

  (** C1, amended. If some upstream-only path ends in [/.DS_STORE],
      the separator included,
      [compareTwoFiles] returns the DS_Store verdict and a nil error,
      whatever the two CRLF counts are: in particular when the
      upstream's exceeds the rebuild's, so that rule 1 beats rule 2. *)
Theorem DS_Store_first (f : string) :
  In f upOnly ->
  HasSuffix f "/.DS_STORE" = true ->
  compareTwoFiles csRB csUP = (Some verdictDSStore, None).
Proof using HDiff.
  intros Hin Hf. unfold compareTwoFiles. rewrite HDiff.
  by rewrite (foundDSStore_loop_true upOnly f Hin Hf).
Qed.

  (** What is left of [compareTwoFiles] once rules 1 and 2 are out of
      the way. *)
Lemma compareTwoFiles_past_rule_2 :
  Forall (fun f => HasSuffix f "/.DS_STORE" = false) upOnly ->
  CRLFCount csUP <= CRLFCount csRB ->
  compareTwoFiles csRB csUP =
    if (len upOnly >? 0) && (len rbOnly >? 0) then (Some verdictMismatchedFiles, None)
    else if len upOnly >? 0 then (Some verdictUpstreamOnly, None)
    else if len rbOnly >? 0 then (Some verdictRebuildOnly, None)
    else if (len upOnly =? 0) && (len rbOnly =? 0) && (len diffs >? 0)
            && forallb (fun f => Contains f ".dist-info/") diffs
         then (Some verdictWheelDiff, None)
    else if len diffs >? 0 then (Some verdictContentDiff, None)
    else (None, None).
Proof using HDiff.
  intros HDS HCRLF. unfold compareTwoFiles. rewrite HDiff.
  rewrite (foundDSStore_loop_false _ HDS), onlyMetadataDiffs_loop_forallb.
  replace (CRLFCount csUP >? CRLFCount csRB) with false; [done|].
  symmetry. rewrite Z.gtb_ltb. by apply Z.ltb_ge.
Qed.

  (** C2. When no upstream-only path ends in [/.DS_STORE] and the
      upstream CRLF count does not exceed the rebuild's: with both the
      upstream-only and the rebuild-only list non-empty the verdict is
      the mismatched-files one, whose message contains "mismatch"; with
      only the upstream-only list non-empty it is the upstream-only
      one; with only the rebuild-only list non-empty it is the
      rebuild-only one. *)
Theorem structural_verdicts :
  Forall (fun f => HasSuffix f "/.DS_STORE" = false) upOnly ->
  CRLFCount csUP <= CRLFCount csRB ->
  (upOnly <> [] -> rbOnly <> [] ->
   compareTwoFiles csRB csUP = (Some verdictMismatchedFiles, None)
   /\ Contains (Error verdictMismatchedFiles) "mismatch" = true)
  /\ (upOnly <> [] -> rbOnly = [] ->
      compareTwoFiles csRB csUP = (Some verdictUpstreamOnly, None))
  /\ (upOnly = [] -> rbOnly <> [] ->
      compareTwoFiles csRB csUP = (Some verdictRebuildOnly, None)).
Proof using HDiff.
  intros HDS HCRLF. rewrite (compareTwoFiles_past_rule_2 HDS HCRLF), !len_pos.
  split; [|split]; intros Hup Hrb.
  - rewrite (bool_decide_eq_false_2 _ Hup), (bool_decide_eq_false_2 _ Hrb).
    split; [done | by vm_compute].
  - by rewrite (bool_decide_eq_false_2 _ Hup), (bool_decide_eq_true_2 _ Hrb).
  - by rewrite (bool_decide_eq_true_2 _ Hup), (bool_decide_eq_false_2 _ Hrb).
Qed.

  (** C3. With empty upstream-only and rebuild-only lists, a non-empty
      list of differing paths, and the upstream CRLF count not above the
      rebuild's: if every differing path contains [.dist-info/] the
      verdict is the wheel-metadata one; if some differing path does
      not, it is the content-differences one. *)
Theorem metadata_verdicts :
  upOnly = [] -> rbOnly = [] -> diffs <> [] ->
  CRLFCount csUP <= CRLFCount csRB ->
  (Forall (fun f => Contains f ".dist-info/" = true) diffs ->
   compareTwoFiles csRB csUP = (Some verdictWheelDiff, None))
  /\ (Exists (fun f => Contains f ".dist-info/" = false) diffs ->
      compareTwoFiles csRB csUP = (Some verdictContentDiff, None)).
Proof using HDiff.
  intros Hup Hrb Hdiffs HCRLF.
  rewrite compareTwoFiles_past_rule_2; [|by rewrite Hup|done].
  rewrite Hup, Hrb. simpl.
  rewrite len_pos, (bool_decide_eq_false_2 _ Hdiffs). simpl.
  split; intros Hall.
  - assert (forallb (fun f => Contains f ".dist-info/") diffs = true) as ->; [|done].
    apply forallb_forall. intros f Hf.
    rewrite Forall_forall in Hall. apply Hall. by apply list_elem_of_In.
  - assert (forallb (fun f => Contains f ".dist-info/") diffs = false) as ->; [|done].
    apply Exists_exists in Hall as (f & Hf & Hno).
    apply not_true_is_false. intros Hall.
    rewrite forallb_forall in Hall. apply list_elem_of_In in Hf.
    specialize (Hall f Hf). congruence.
Qed.

  (** C4. With no upstream-only path, no rebuild-only path, no differing
      path, and the upstream CRLF count not above the rebuild's,
      [compareTwoFiles] returns no verdict and a nil error. *)
Theorem identical_no_verdict :
  upOnly = [] -> diffs = [] -> rbOnly = [] ->
  CRLFCount csUP <= CRLFCount csRB ->
  compareTwoFiles csRB csUP = (None, None).
Proof using HDiff.
  intros Hup Hdiffs Hrb HCRLF.
  rewrite compareTwoFiles_past_rule_2; [|by rewrite Hup|done].
  by rewrite Hup, Hdiffs, Hrb.
Qed.

End Claims.

Import samples.

#[local] Ltac diff_of := vm_compute; reflexivity.

Lemma DS_Store_first_witness :
  CRLFCount wheel_macos > CRLFCount wheel
  /\ compareTwoFiles wheel wheel_macos = (Some verdictDSStore, None).
Proof.
  split; [reflexivity|].
  apply (DS_Store_first (HS := ContentSummary_Summary) wheel wheel_macos ["pkg/.DS_STORE"] [] [] ltac:(diff_of)
           "pkg/.DS_STORE").
  - left; reflexivity.
  - reflexivity.
Defined.

  (** The three cases of C2: the wheels of the API service test, a
      rebuild that lacks a module, and a rebuild with a module more. *)
Lemma structural_verdicts_witness :
  compareTwoFiles wheel_foo wheel_not_foo = (Some verdictMismatchedFiles, None)
  /\ compareTwoFiles wheel_less wheel = (Some verdictUpstreamOnly, None)
  /\ compareTwoFiles wheel wheel_less = (Some verdictRebuildOnly, None).
Proof.
  split; [|split].
  - apply (structural_verdicts (HS := ContentSummary_Summary) wheel_foo wheel_not_foo ["totally-not-foo"] [] ["foo"]
             ltac:(diff_of)); [repeat constructor | simpl; lia | done | done].
  - apply (structural_verdicts (HS := ContentSummary_Summary) wheel_less wheel ["pkg/b.py"] [] []
             ltac:(diff_of)); [repeat constructor | simpl; lia | done | done].
  - apply (structural_verdicts (HS := ContentSummary_Summary) wheel wheel_less [] [] ["pkg/b.py"]
             ltac:(diff_of)); [repeat constructor | simpl; lia | done | done].
Defined.

  (** The two cases of C3: a rebuild whose [RECORD] alone differs, and
      one where a module differs as well. *)
Lemma metadata_verdicts_witness :
  compareTwoFiles wheel wheel_record = (Some verdictWheelDiff, None)
  /\ compareTwoFiles wheel wheel_edited = (Some verdictContentDiff, None).
Proof.
  split.
  - apply (metadata_verdicts (HS := ContentSummary_Summary) wheel wheel_record [] ["pkg-1.0.dist-info/RECORD"] []
             ltac:(diff_of)); [done | done | done | simpl; lia | repeat constructor].
  - apply (metadata_verdicts (HS := ContentSummary_Summary) wheel wheel_edited
             [] ["pkg/a.py"; "pkg-1.0.dist-info/RECORD"] []
             ltac:(diff_of)); [done | done | done | simpl; lia |].
    apply Exists_cons_hd. reflexivity.
Defined.

Lemma identical_no_verdict_witness :
  compareTwoFiles wheel wheel = (None, None).
Proof.
  apply (identical_no_verdict (HS := ContentSummary_Summary) wheel wheel [] [] [] ltac:(diff_of));
    [done | done | done | simpl; lia].
Defined.

  (** The marker of rule 1 starts with the separator: a [.DS_STORE] at
      the root of the archive, whose path has none, is an upstream-only
      file like any other. *)
Remark DS_STORE_marker_has_separator :
  HasSuffix ".DS_STORE" "/.DS_STORE" = false
  /\ compareTwoFiles wheel wheel_macos_root = (Some verdictUpstreamOnly, None).
Proof. split; vm_compute; reflexivity. Qed.

  (** C1 as stated fails: the upstream-only path [.DS_STORE], at the
      root of the archive, ends in [.DS_STORE], and the verdict is the
      upstream-only one, not the DS_Store one. *)
Lemma root_DS_STORE_is_upstream_only :
  ~ (forall (csRB csUP : ContentSummary) (upOnly diffs rbOnly : list string) (f : string),
       Diff csUP csRB = (upOnly, diffs, rbOnly) ->
       In f upOnly ->
       HasSuffix f ".DS_STORE" = true ->
       compareTwoFiles csRB csUP = (Some verdictDSStore, None)).
Proof.
  intros Hall.
  specialize (Hall wheel wheel_macos_root [".DS_STORE"] [] [] ".DS_STORE"
                ltac:(vm_compute; reflexivity) ltac:(left; reflexivity)
                ltac:(reflexivity)).
  vm_compute in Hall. discriminate Hall.
Qed.

  (** The modelled [Diff] sorts every path of the two summaries into at
      most one of its three lists. *)
Lemma ContentSummary_Diff_elem_of (cs other : ContentSummary) (f : string) :
  (f ∈ (Diff cs other).1.1 <-> is_Some (Files cs !! f) /\ Files other !! f = None)
  /\ (f ∈ (Diff cs other).1.2 <->
      is_Some (Files cs !! f) /\ is_Some (Files other !! f)
      /\ Files other !! f <> Files cs !! f)
  /\ (f ∈ (Diff cs other).2 <-> Files cs !! f = None /\ is_Some (Files other !! f)).
Proof.
  simpl. rewrite !list_elem_of_filter, !elem_of_elements, !elem_of_dom.
  intuition.
Qed.

Lemma filter_none {A} (P : A -> Prop) `{forall x, Decision (P x)} (l : list A) :
  (forall x, x ∈ l -> ~ P x) -> filter P l = [].
Proof.
  intros Hno. destruct (filter P l) as [|x k] eqn:Hfilter; [done|].
  assert (Hx : x ∈ filter P l) by (rewrite Hfilter; left).
  apply list_elem_of_filter in Hx as [HP Hx]. by destruct (Hno x Hx).
Qed.

  (** The modelled [Diff] of a summary against itself is empty, so a
      summary compared with itself has no verdict. *)
Lemma ContentSummary_Diff_same (cs : ContentSummary) : Diff cs cs = ([], [], []).
Proof.
  simpl. unfold ContentSummary_Diff.
  rewrite !filter_none; [done|..]; intros f Hf;
    apply elem_of_elements in Hf; apply elem_of_dom in Hf as [x Hx];
    rewrite Hx; solve [done | intros [_ Hne]; by apply Hne].
Qed.

Lemma compareTwoFiles_same (cs : ContentSummary) :
  compareTwoFiles cs cs = (None, None).
Proof.
  rewrite (compareTwoFiles_past_rule_2 cs cs [] [] [] (ContentSummary_Diff_same cs));
    [done | constructor | lia].
Qed.

(** *** What a verdict tells *)

Lemma existsb_true_Exists {A} (p : A -> bool) (l : list A) :
  existsb p l = true <-> Exists (fun x => p x = true) l.
Proof.
  rewrite existsb_exists, Exists_exists.
  split; intros (x & Hx & Hp); exists x; split; auto; by apply list_elem_of_In.
Qed.

Lemma existsb_false_Forall {A} (p : A -> bool) (l : list A) :
  existsb p l = false <-> Forall (fun x => p x = false) l.
Proof.
  induction l as [|x l IH]; simpl.
  - split; [constructor | done].
  - rewrite orb_false_iff, IH, Forall_cons. tauto.
Qed.

Lemma forallb_true_Forall {A} (p : A -> bool) (l : list A) :
  forallb p l = true <-> Forall (fun x => p x = true) l.
Proof.
  induction l as [|x l IH]; simpl.
  - split; [constructor | done].
  - rewrite andb_true_iff, IH, Forall_cons. tauto.
Qed.

Lemma forallb_false_Exists {A} (p : A -> bool) (l : list A) :
  forallb p l = false <-> Exists (fun x => p x = false) l.
Proof.
  induction l as [|x l IH]; simpl.
  - split; [done | by intros ?%Exists_nil].
  - rewrite andb_false_iff, IH, Exists_cons. tauto.
Qed.

Lemma Exists_Forall_clash {A} (p : A -> bool) (b : bool) (l : list A) :
  Exists (fun x => p x = b) l -> Forall (fun x => p x = negb b) l -> False.
Proof.
  intros (x & Hx & Hp)%Exists_exists Hall.
  rewrite Forall_forall in Hall. specialize (Hall x Hx).
  rewrite Hp in Hall. by destruct b.
Qed.

Section Meaning.

Context {CS : Type} {HS : Summary CS}.

Variables (csRB csUP : CS) (upOnly diffs rbOnly : list string).
Hypothesis HDiff : Diff csUP csRB = (upOnly, diffs, rbOnly).

Abbreviation DS_STORE f := (HasSuffix f "/.DS_STORE").
Abbreviation dist_info f := (Contains f ".dist-info/").

  (** The decision table of [compareTwoFiles]: exactly one row applies. *)
Lemma compareTwoFiles_table :
  (Exists (fun f => DS_STORE f = true) upOnly
   /\ compareTwoFiles csRB csUP = (Some verdictDSStore, None))
  \/ (Forall (fun f => DS_STORE f = false) upOnly
      /\ CRLFCount csUP > CRLFCount csRB
      /\ compareTwoFiles csRB csUP = (Some verdictLineEndings, None))
  \/ (Forall (fun f => DS_STORE f = false) upOnly
      /\ CRLFCount csUP <= CRLFCount csRB
      /\ ((upOnly <> [] /\ rbOnly <> []
           /\ compareTwoFiles csRB csUP = (Some verdictMismatchedFiles, None))
          \/ (upOnly <> [] /\ rbOnly = []
              /\ compareTwoFiles csRB csUP = (Some verdictUpstreamOnly, None))
          \/ (upOnly = [] /\ rbOnly <> []
              /\ compareTwoFiles csRB csUP = (Some verdictRebuildOnly, None))
          \/ (upOnly = [] /\ rbOnly = [] /\ diffs <> []
              /\ Forall (fun f => dist_info f = true) diffs
              /\ compareTwoFiles csRB csUP = (Some verdictWheelDiff, None))
          \/ (upOnly = [] /\ rbOnly = []
              /\ Exists (fun f => dist_info f = false) diffs
              /\ compareTwoFiles csRB csUP = (Some verdictContentDiff, None))
          \/ (upOnly = [] /\ rbOnly = [] /\ diffs = []
              /\ compareTwoFiles csRB csUP = (None, None)))).
Proof using HDiff.
  destruct (existsb (fun f => DS_STORE f) upOnly) eqn:HDS.
  { left. split; [by apply existsb_true_Exists|].
    unfold compareTwoFiles. rewrite HDiff.
    by rewrite foundDSStore_loop_existsb, HDS. }
  right. apply existsb_false_Forall in HDS.
  destruct (Z_gt_le_dec (CRLFCount csUP) (CRLFCount csRB)) as [Hgt|Hle].
  { left. repeat split; try done.
    unfold compareTwoFiles. rewrite HDiff, (foundDSStore_loop_false _ HDS).
    by rewrite (proj2 (Z.gtb_gt _ _) Hgt). }
  right. repeat split; try done.
  rewrite (compareTwoFiles_past_rule_2 _ _ _ _ _ HDiff HDS Hle), !len_pos, !len_zero.
  destruct (decide (upOnly = [])) as [Hup|Hup], (decide (rbOnly = [])) as [Hrb|Hrb];
    rewrite ?(bool_decide_eq_true_2 _ Hup), ?(bool_decide_eq_false_2 _ Hup),
            ?(bool_decide_eq_true_2 _ Hrb), ?(bool_decide_eq_false_2 _ Hrb); simpl.
  - destruct (decide (diffs = [])) as [Hd|Hd].
    + do 5 right. rewrite (bool_decide_eq_true_2 _ Hd). simpl. by rewrite Hd.
    + rewrite (bool_decide_eq_false_2 _ Hd). simpl.
      destruct (forallb (fun f => dist_info f) diffs) eqn:Hmeta.
      * do 3 right; left. by apply forallb_true_Forall in Hmeta.
      * do 4 right; left. by apply forallb_false_Exists in Hmeta.
  - do 2 right; left. done.
  - right; left. done.
  - left. done.
Qed.

#[local] Ltac rows :=
  destruct compareTwoFiles_table
    as [(HDS & Hr)
       |[(HDS & HCRLF & Hr)
        |(HDS & HCRLF &
          [(Hup & Hrb & Hr)
          |[(Hup & Hrb & Hr)
           |[(Hup & Hrb & Hr)
            |[(Hup & Hrb & Hd & Hmeta & Hr)
             |[(Hup & Hrb & Hmeta & Hr)
              |(Hup & Hrb & Hd & Hr)]]]]])]];
  rewrite Hr; simpl.

#[local] Ltac clash :=
  exfalso;
  match goal with
  | H : Some _ = Some _ |- _ => vm_compute in H; discriminate H
  | H : Some _ = None |- _ => discriminate H
  | H : None = Some _ |- _ => discriminate H
  | H : Exists _ ?l, H' : Forall _ ?l |- _ =>
      solve [apply (Exists_Forall_clash _ true _ H H')
            |apply (Exists_Forall_clash _ false _ H H')]
  | H : Exists _ ?l, H' : ?l = [] |- _ => rewrite H' in H; by apply Exists_nil in H
  | H : ?l = [], H' : ?l <> [] |- _ => by destruct H'
  | _ => lia
  end.

  (** X1. The DS_Store verdict is returned exactly when some
      upstream-only path ends in [/.DS_STORE]. *)
Theorem DS_Store_verdict_iff :
  (compareTwoFiles csRB csUP).1 = Some verdictDSStore
  <-> Exists (fun f => HasSuffix f "/.DS_STORE" = true) upOnly.
Proof using HDiff.
  rows; (split; [intros Hv | intros HDS']); solve [done | clash].
Qed.

  (** X2. The line-endings verdict is returned exactly when no
      upstream-only path ends in [/.DS_STORE] and the upstream CRLF
      count exceeds the rebuild's: whatever files are missing or
      differ, rule 2 comes before rules 3 to 7. *)
Theorem line_endings_verdict_iff :
  (compareTwoFiles csRB csUP).1 = Some verdictLineEndings
  <-> Forall (fun f => HasSuffix f "/.DS_STORE" = false) upOnly
      /\ CRLFCount csUP > CRLFCount csRB.
Proof using HDiff.
  rows; (split; [intros Hv | intros [HDS' HCRLF']]); solve [done | clash].
Qed.

  (** X3. No verdict is returned exactly when no path is upstream
      only, rebuild only or differing and the upstream CRLF count does
      not exceed the rebuild's; CRLFs in excess in the rebuild are no
      mismatch. *)
Theorem no_verdict_iff :
  (compareTwoFiles csRB csUP).1 = None
  <-> upOnly = [] /\ rbOnly = [] /\ diffs = []
      /\ CRLFCount csUP <= CRLFCount csRB.
Proof using HDiff.
  rows; (split; [intros Hv | intros (Hup' & Hrb' & Hd' & HCRLF')]);
    solve [done | clash].
Qed.

  (** X4. Each of the three verdicts on missing files is returned only
      in its own case: mismatched files when paths are missing on both
      sides, upstream-only and rebuild-only when they are missing on
      one side, always with no upstream-only path ending in
      [/.DS_STORE] and no CRLFs in excess upstream. *)
Theorem structural_verdicts_iff :
  ((compareTwoFiles csRB csUP).1 = Some verdictMismatchedFiles
   <-> Forall (fun f => HasSuffix f "/.DS_STORE" = false) upOnly
       /\ CRLFCount csUP <= CRLFCount csRB /\ upOnly <> [] /\ rbOnly <> [])
  /\ ((compareTwoFiles csRB csUP).1 = Some verdictUpstreamOnly
      <-> Forall (fun f => HasSuffix f "/.DS_STORE" = false) upOnly
          /\ CRLFCount csUP <= CRLFCount csRB /\ upOnly <> [] /\ rbOnly = [])
  /\ ((compareTwoFiles csRB csUP).1 = Some verdictRebuildOnly
      <-> CRLFCount csUP <= CRLFCount csRB /\ upOnly = [] /\ rbOnly <> []).
Proof using HDiff.
  rows; (split; [|split]);
    (split; [intros Hv | intros Hc; decompose [and] Hc; clear Hc]);
    solve [done | clash].
Qed.

  (** X5. The wheel-metadata verdict is returned exactly when no path is
      missing on either side, some path differs, every differing path
      contains [.dist-info/] and there are no CRLFs in excess upstream;
      the content-differences verdict exactly when, in the same
      setting, some differing path does not contain [.dist-info/]. *)
Theorem metadata_verdicts_iff :
  ((compareTwoFiles csRB csUP).1 = Some verdictWheelDiff
   <-> CRLFCount csUP <= CRLFCount csRB /\ upOnly = [] /\ rbOnly = []
       /\ diffs <> []
       /\ Forall (fun f => Contains f ".dist-info/" = true) diffs)
  /\ ((compareTwoFiles csRB csUP).1 = Some verdictContentDiff
      <-> CRLFCount csUP <= CRLFCount csRB /\ upOnly = [] /\ rbOnly = []
          /\ Exists (fun f => Contains f ".dist-info/" = false) diffs).
Proof using HDiff.
  rows; split;
    (split; [intros Hv | intros Hc; decompose [and] Hc; clear Hc]);
    solve [done | clash].
Qed.

End Meaning.

Lemma DS_Store_verdict_iff_witness :
  (compareTwoFiles wheel wheel_macos).1 = Some verdictDSStore
  <-> Exists (fun f => HasSuffix f "/.DS_STORE" = true) ["pkg/.DS_STORE"].
Proof.
  exact (DS_Store_verdict_iff (HS := ContentSummary_Summary) wheel wheel_macos
           ["pkg/.DS_STORE"] [] [] ltac:(diff_of)).
Defined.

Lemma line_endings_verdict_iff_witness :
  (compareTwoFiles wheel_less (summary [("pkg/a.py", "a1")] 2)).1
  = Some verdictLineEndings.
Proof.
  apply (line_endings_verdict_iff (HS := ContentSummary_Summary)
           wheel_less (summary [("pkg/a.py", "a1")] 2)
           [] [] ["pkg-1.0.dist-info/RECORD"] ltac:(diff_of)).
  split; [constructor | reflexivity].
Defined.

Lemma no_verdict_iff_witness :
  (compareTwoFiles (summary [("foo", "foo")] 4) wheel_foo).1 = None.
Proof.
  apply (no_verdict_iff (HS := ContentSummary_Summary)
           (summary [("foo", "foo")] 4) wheel_foo [] [] [] ltac:(diff_of)).
  repeat split; simpl; lia.
Defined.

Lemma structural_verdicts_iff_witness :
  (compareTwoFiles wheel_foo wheel_not_foo).1 = Some verdictMismatchedFiles
  /\ (compareTwoFiles wheel_less wheel).1 = Some verdictUpstreamOnly
  /\ (compareTwoFiles wheel wheel_less).1 = Some verdictRebuildOnly.
Proof.
  split; [|split].
  - apply (proj1 (structural_verdicts_iff (HS := ContentSummary_Summary)
                    wheel_foo wheel_not_foo ["totally-not-foo"] [] ["foo"]
                    ltac:(diff_of))).
    repeat split; [repeat constructor | simpl; lia | done | done].
  - apply (proj1 (proj2 (structural_verdicts_iff (HS := ContentSummary_Summary)
                           wheel_less wheel ["pkg/b.py"] [] [] ltac:(diff_of)))).
    repeat split; [repeat constructor | simpl; lia | done].
  - apply (proj2 (proj2 (structural_verdicts_iff (HS := ContentSummary_Summary)
                           wheel wheel_less [] [] ["pkg/b.py"] ltac:(diff_of)))).
    repeat split; [simpl; lia | done].
Defined.

Lemma metadata_verdicts_iff_witness :
  (compareTwoFiles wheel wheel_record).1 = Some verdictWheelDiff
  /\ (compareTwoFiles wheel wheel_edited).1 = Some verdictContentDiff.
Proof.
  split.
  - apply (proj1 (metadata_verdicts_iff (HS := ContentSummary_Summary)
                    wheel wheel_record [] ["pkg-1.0.dist-info/RECORD"] []
                    ltac:(diff_of))).
    repeat split; [simpl; lia | done | repeat constructor].
  - apply (proj2 (metadata_verdicts_iff (HS := ContentSummary_Summary)
                    wheel wheel_edited [] ["pkg/a.py"; "pkg-1.0.dist-info/RECORD"] []
                    ltac:(diff_of))).
    repeat split; [simpl; lia | by apply Exists_cons_hd].
Defined.

(** *** What is returned and what it depends on *)

  (** X6. [compareTwoFiles] never returns an error of its own, and what
      it returns as a verdict is nil or one of the seven verdict values
      of the package. *)
Theorem compareTwoFiles_returns {CS : Type} {HS : Summary CS} (csRB csUP : CS) :
  (compareTwoFiles csRB csUP).2 = None
  /\ ((compareTwoFiles csRB csUP).1 = None
      \/ exists v, (compareTwoFiles csRB csUP).1 = Some v /\ In v verdicts).
Proof.
  split; [apply compareTwoFiles_err_nil|].
  destruct (compareTwoFiles csRB csUP).1 as [v|] eqn:Hv; [right | by left].
  exists v. split; [done|]. by apply (compareTwoFiles_verdict csRB csUP).
Qed.

Lemma existsb_Permutation {A} (p : A -> bool) (l k : list A) :
  l ≡ₚ k -> existsb p l = existsb p k.
Proof.
  induction 1 as [|x l k _ IH|x y l|l k m _ IH1 _ IH2]; simpl.
  - done.
  - by rewrite IH.
  - by rewrite !orb_assoc, (orb_comm (p y)).
  - by rewrite IH1.
Qed.

Lemma forallb_Permutation {A} (p : A -> bool) (l k : list A) :
  l ≡ₚ k -> forallb p l = forallb p k.
Proof.
  induction 1 as [|x l k _ IH|x y l|l k m _ IH1 _ IH2]; simpl.
  - done.
  - by rewrite IH.
  - by rewrite !andb_assoc, (andb_comm (p y)).
  - by rewrite IH1.
Qed.

Lemma len_Permutation {A} (l k : list A) : l ≡ₚ k -> len l = len k.
Proof. intros Hp. unfold len. by rewrite (Permutation_length Hp). Qed.

  (** X7. The result depends on the three lists of [Diff] only up to
      the order of their paths, and on the two CRLF counts: two pairs of
      summaries, of any two kinds, whose lists are permutations of one
      another and whose counts agree are classified alike. *)
Theorem compareTwoFiles_order_irrelevant
    {CS CS' : Type} {HS : Summary CS} {HS' : Summary CS'}
    (csRB csUP : CS) (csRB' csUP' : CS')
    (upOnly diffs rbOnly upOnly' diffs' rbOnly' : list string) :
  Diff csUP csRB = (upOnly, diffs, rbOnly) ->
  Diff csUP' csRB' = (upOnly', diffs', rbOnly') ->
  upOnly ≡ₚ upOnly' -> diffs ≡ₚ diffs' -> rbOnly ≡ₚ rbOnly' ->
  CRLFCount csUP = CRLFCount csUP' ->
  CRLFCount csRB = CRLFCount csRB' ->
  compareTwoFiles csRB csUP = compareTwoFiles csRB' csUP'.
Proof.
  intros HDiff HDiff' Hup Hd Hrb HcUP HcRB.
  unfold compareTwoFiles. rewrite HDiff, HDiff', HcUP, HcRB.
  rewrite !foundDSStore_loop_existsb, !onlyMetadataDiffs_loop_forallb.
  rewrite (existsb_Permutation _ _ _ Hup), (forallb_Permutation _ _ _ Hd).
  by rewrite (len_Permutation _ _ Hup), (len_Permutation _ _ Hd),
             (len_Permutation _ _ Hrb).
Qed.

Lemma compareTwoFiles_order_irrelevant_witness :
  compareTwoFiles (H := ContentSummary_Summary) wheel wheel_edited
  = compareTwoFiles (H := backwards) wheel wheel_edited.
Proof.
  apply (compareTwoFiles_order_irrelevant
           (HS := ContentSummary_Summary) (HS' := backwards)
           wheel wheel_edited wheel wheel_edited
           [] ["pkg/a.py"; "pkg-1.0.dist-info/RECORD"] []
           [] ["pkg-1.0.dist-info/RECORD"; "pkg/a.py"] []).
  - diff_of.
  - diff_of.
  - constructor.
  - apply perm_swap.
  - constructor.
  - reflexivity.
  - reflexivity.
Defined.

End classifier.

(** ** The rebuilder *)

Module rebuilder.

Import state rebuild pypireg archive pypi.

Section Rebuild.

Context {World R O : Type}.
Variable ExecuteScript : string -> string -> World -> World * (string + error).
Variables (t : Target) (inst : Instructions) (root : string).
Variable h : Host World R O.

  (** C5. [Rebuild] runs the Source, Deps and Build scripts in this
      order and stops at the first that fails. If Source fails, its
      error is returned wrapped with "fetching source" and Source is the
      only script run. If Source succeeds and Deps fails, the error is
      wrapped with "configuring build deps" and Build is not run. If
      both succeed and Build fails, the error is wrapped with "executing
      build". If all three succeed, the result is nil. The three
      contexts are pairwise distinct. *)
Theorem Rebuild_fail_fast :
  (forall w1 err,
     ExecuteScript root (Source inst) (world h) = (w1, inr err) ->
     Rebuild ExecuteScript t inst root h
     = (ran h root [Source inst] w1, Some (Wrap err "fetching source")))
  /\ (forall w1 out1 w2 err,
        ExecuteScript root (Source inst) (world h) = (w1, inl out1) ->
        ExecuteScript root (Deps inst) w1 = (w2, inr err) ->
        Rebuild ExecuteScript t inst root h
        = (ran h root [Source inst; Deps inst] w2, Some (Wrap err "configuring build deps")))
  /\ (forall w1 out1 w2 out2 w3 err,
        ExecuteScript root (Source inst) (world h) = (w1, inl out1) ->
        ExecuteScript root (Deps inst) w1 = (w2, inl out2) ->
        ExecuteScript root (Build inst) w2 = (w3, inr err) ->
        Rebuild ExecuteScript t inst root h
        = (ran h root [Source inst; Deps inst; Build inst] w3, Some (Wrap err "executing build")))
  /\ (forall w1 out1 w2 out2 w3 out3,
        ExecuteScript root (Source inst) (world h) = (w1, inl out1) ->
        ExecuteScript root (Deps inst) w1 = (w2, inl out2) ->
        ExecuteScript root (Build inst) w2 = (w3, inl out3) ->
        Rebuild ExecuteScript t inst root h
        = (ran h root [Source inst; Deps inst; Build inst] w3, None))
  /\ NoDup ["fetching source"; "configuring build deps"; "executing build"].
Proof.
  unfold Rebuild, bind, invoke, ret, ran.
  repeat split.
  - intros w1 err ->. done.
  - intros w1 out1 w2 err -> Hdeps. simpl. rewrite Hdeps. simpl.
    by rewrite <- app_assoc.
  - intros w1 out1 w2 out2 w3 err -> Hdeps Hbuild. simpl.
    rewrite Hdeps. simpl. rewrite Hbuild. simpl.
    by rewrite <- !app_assoc.
  - intros w1 out1 w2 out2 w3 out3 -> Hdeps Hbuild. simpl.
    rewrite Hdeps. simpl. rewrite Hbuild. simpl.
    by rewrite <- !app_assoc.
  - by apply (bool_decide_unpack _); vm_compute.
Qed.

End Rebuild.

Import samples.

Lemma Rebuild_fail_fast_witness :
  Rebuild sh absl deps_fail "/src" (host0 [])
  = (ran (host0 []) "/src" [checkout; "exit 1"] [checkout; "exit 1"],
     Some (Wrap (New "exit status 1") "configuring build deps")).
Proof.
  apply (proj1 (proj2 (Rebuild_fail_fast sh absl deps_fail "/src" (host0 [])))
           [checkout] "" [checkout; "exit 1"] (New "exit status 1"));
    reflexivity.
Defined.

Section Compare.

Context {World R O CS : Type} {HS : Summary CS}.
Variable Summarize : Target -> Asset -> Asset -> World -> World * (CS * CS + error).
Variable fmt_v : Asset -> string.
Variables (t : Target) (rb up : Asset).
Variable h : Host World R O.

  (** What [Compare] returns, by the outcome of [Summarize]. *)
Lemma Compare_unfold :
  (Compare Summarize fmt_v t rb up h).2 =
    match (Summarize t rb up (world h)).2 with
    | inr err => (None, Some (Wrap err "summarizing assets"))
    | inl (csRB, csUP) => ((compareTwoFiles csRB csUP).1, None)
    end.
Proof.
  unfold Compare, bind, invoke, ret.
  destruct (Summarize t rb up (world h)) as [w1 [[csRB csUP]|err]]; simpl; [|done].
  pose proof (classifier.compareTwoFiles_err_nil csRB csUP) as Hnil.
  destruct (compareTwoFiles csRB csUP) as [verdict err]. simpl in *. by subst.
Qed.

  (** C6. If [Summarize] fails, [Compare] returns a nil verdict and the
      error wrapped with "summarizing assets". If it succeeds, [Compare]
      returns the verdict of [compareTwoFiles], which may be nil, and a
      nil error. So an error is returned only when [Summarize] failed,
      and a verdict never comes with an error. *)
Theorem Compare_error_only_from_Summarize :
  (forall w1 err,
     Summarize t rb up (world h) = (w1, inr err) ->
     (Compare Summarize fmt_v t rb up h).2
     = (None, Some (Wrap err "summarizing assets")))
  /\ (forall w1 csRB csUP,
        Summarize t rb up (world h) = (w1, inl (csRB, csUP)) ->
        (Compare Summarize fmt_v t rb up h).2
        = ((compareTwoFiles csRB csUP).1, None))
  /\ (forall e,
        (Compare Summarize fmt_v t rb up h).2.2 = Some e ->
        exists w1 err,
          Summarize t rb up (world h) = (w1, inr err)
          /\ e = Wrap err "summarizing assets"
          /\ (Compare Summarize fmt_v t rb up h).2.1 = None)
  /\ (forall verdict,
        (Compare Summarize fmt_v t rb up h).2.1 = Some verdict ->
        (Compare Summarize fmt_v t rb up h).2.2 = None).
Proof.
  rewrite Compare_unfold.
  destruct (Summarize t rb up (world h)) as [w1 [[csRB csUP]|err]] eqn:HS1; simpl.
  - repeat split; try done. by intros ? ? ? [= <- <- <-].
  - repeat split; try done.
    + by intros ? ? [= <- <-].
    + intros e [= <-]. by exists w1, err.
Qed.

End Compare.

Lemma Compare_error_only_from_Summarize_witness :
  (Compare summarize show absl rebuilt upstream
     (host0 {["rebuild" := wheel_foo]})).2
  = (None, Some (Wrap (New "asset not found") "summarizing assets"))
  /\ (Compare summarize show absl rebuilt upstream
        (host0 {["rebuild" := wheel_foo; "upstream" := wheel_not_foo]})).2
     = (Some verdictMismatchedFiles, None).
Proof.
  split.
  - apply (proj1 (Compare_error_only_from_Summarize summarize show absl rebuilt upstream
                    (host0 {["rebuild" := wheel_foo]})))
      with (w1 := {["rebuild" := wheel_foo]}).
    vm_compute; reflexivity.
  - transitivity ((compareTwoFiles wheel_foo wheel_not_foo).1, @None error);
      [|vm_compute; reflexivity].
    apply (proj1 (proj2 (Compare_error_only_from_Summarize summarize show absl
                           rebuilt upstream
                           (host0 {["rebuild" := wheel_foo; "upstream" := wheel_not_foo]})))
             {["rebuild" := wheel_foo; "upstream" := wheel_not_foo]}
             wheel_foo wheel_not_foo).
    vm_compute; reflexivity.
Defined.

Section RebuildRemote.

Context {World R O : Type}.
Variable generic_RebuildRemote :
  Input R -> string -> RemoteOptions O -> World -> World * option error.

  (** C10. [RebuildRemote] is one call of the generic remote rebuild, on
      the same input and id, with options whose [UseTimewarp] is true
      and whose other fields are the caller's; the caller's own
      [UseTimewarp] has no influence. *)
Theorem RebuildRemote_forces_timewarp
    (input : Input R) (id : string) (opts : RemoteOptions O) (h : Host World R O) :
  (exists opts',
     UseTimewarp opts' = true
     /\ OptionsRest opts' = OptionsRest opts
     /\ RebuildRemote generic_RebuildRemote input id opts h
        = invoke (RebuildRemoteCall input id opts')
                 (generic_RebuildRemote input id opts') h)
  /\ (forall b,
        RebuildRemote generic_RebuildRemote input id
          {| UseTimewarp := b; OptionsRest := OptionsRest opts |} h
        = RebuildRemote generic_RebuildRemote input id opts h).
Proof.
  split.
  - by exists {| UseTimewarp := true; OptionsRest := OptionsRest opts |}.
  - done.
Qed.

End RebuildRemote.

Section RebuildMany.

Context {World R O Verdict : Type}.
Variable Project_of : string -> World -> World * (Project + error).
Variable FindPureWheel : list Artifact -> Artifact + error.
Variable generic_RebuildMany :
  list (Input R) -> World -> World * (list Verdict + error).

  (** The loop stops at the first input for which [FindPureWheel]
      fails, and leaves this input and the ones after it as they are. *)
Lemma findWheels_first_failure (project : Project)
    (before : list (Input R)) (input : Input R) (after : list (Input R)) (e : error) :
  Forall (fun i => exists a,
            FindPureWheel (release project (Version (InputTarget i))) = inl a) before ->
  FindPureWheel (release project (Version (InputTarget input))) = inr e ->
  exists before',
    List.length before' = List.length before
    /\ findWheels FindPureWheel project (before ++ input :: after)
       = (before' ++ input :: after,
          Some (New (Version (InputTarget input) +:+ " does not have a none-any wheel"))).
Proof.
  intros Hbefore Hinput.
  induction Hbefore as [|i before [a Ha] _ (before' & Hlen & IH)]; simpl.
  - exists []. by rewrite Hinput.
  - rewrite Ha, IH. exists (setArtifact i (Filename a) :: before'). simpl.
    by rewrite Hlen.
Qed.

  (** X10. A failed registry lookup is returned as it is, whatever the
      versions are: the inputs are left as they were and the generic
      rebuild is not called. *)
Lemma RebuildMany_lookup_failure
    (input0 : Input R) (rest : list (Input R)) (h : Host World R O)
    (w1 : World) (err : error) :
  Project_of (Package (InputTarget input0)) (world h) = (w1, inr err) ->
  RebuildMany Project_of FindPureWheel generic_RebuildMany (input0 :: rest) h
  = ({| world := w1; calls := calls h ++ [ProjectCall (Package (InputTarget input0))] |},
     (input0 :: rest, inr err)).
Proof.
  intros Hlookup. unfold RebuildMany, bind, invoke, ret. by rewrite Hlookup.
Qed.

  (** C7, amended. When the registry lookup of the first input's package
      succeeds, and [input] is the first input of the list for whose
      version [FindPureWheel] fails on the project's releases,
      [RebuildMany] returns the error "<version> does not have a
      none-any wheel" for this version, and it has called the registry
      and nothing else: the generic rebuild is not called. The inputs
      before [input] may have been updated, [input] and the ones after
      it are as they were. *)
Theorem RebuildMany_first_missing_wheel
    (before : list (Input R)) (input : Input R) (after : list (Input R))
    (h : Host World R O) (w1 : World) (project : Project) (e : error) :
  Project_of (Package (InputTarget (hd input before))) (world h) = (w1, inl project) ->
  Forall (fun i => exists a,
            FindPureWheel (release project (Version (InputTarget i))) = inl a) before ->
  FindPureWheel (release project (Version (InputTarget input))) = inr e ->
  exists before',
    List.length before' = List.length before
    /\ RebuildMany Project_of FindPureWheel generic_RebuildMany
         (before ++ input :: after) h
       = ({| world := w1;
             calls := calls h ++ [ProjectCall (Package (InputTarget (hd input before)))] |},
          (before' ++ input :: after,
           inr (New (Version (InputTarget input) +:+ " does not have a none-any wheel")))).
Proof.
  intros Hlookup Hbefore Hinput.
  destruct (findWheels_first_failure project before input after e Hbefore Hinput)
    as (before' & Hlen & Hloop).
  exists before'. split; [done|].
  unfold RebuildMany, bind, invoke, ret.
  destruct before as [|input0 before]; simpl in *;
    by rewrite Hlookup, Hloop.
Qed.

End RebuildMany.

Lemma RebuildMany_first_missing_wheel_witness :
  let run := RebuildMany registry (FindPureWheel_by none_any) rebuild_all
               [of_version "2.0.0"; of_version "1.0"; of_version "1.1"] (host0 tt) in
  run.2.2 = inr (New "1.0 does not have a none-any wheel")
  /\ calls run.1 = [ProjectCall "absl-py"].
Proof.
  destruct (RebuildMany_first_missing_wheel registry (FindPureWheel_by none_any)
              rebuild_all [of_version "2.0.0"] (of_version "1.0") [of_version "1.1"]
              (host0 tt) tt absl_project (New "file does not exist"))
    as (before' & Hlen & Hrun).
  - reflexivity.
  - constructor; [by exists wheel_2_0_0 | constructor].
  - reflexivity.
  - split.
    + exact (f_equal (fun x => x.2.2) Hrun).
    + exact (f_equal (fun x => calls x.1) Hrun).
Defined.

  (** C7 as stated fails: with two versions that have no wheel, the
      error names the first only. *)
Lemma RebuildMany_names_first_version_only :
  ~ (forall v,
       In v ["1.0"; "1.1"] ->
       (exists e, FindPureWheel_by none_any (release absl_project v) = inr e) ->
       (RebuildMany registry (FindPureWheel_by none_any) rebuild_all
          [of_version "1.0"; of_version "1.1"] (host0 tt)).2.2
       = inr (New (v +:+ " does not have a none-any wheel"))).
Proof.
  intros Hall.
  specialize (Hall "1.1" ltac:(right; left; reflexivity)
                ltac:(by exists (New "file does not exist"))).
  vm_compute in Hall. discriminate Hall.
Qed.

(** *** More on [Compare] and [RebuildMany] *)

  (** X8. [Compare] calls [Summarize] once and nothing else, and leaves
      the world as [Summarize] left it. Its result does not depend on
      how assets are printed: the error "Failed to compare ..." is never
      produced, and an error it returns has the context "summarizing
      assets". *)
Theorem Compare_summarizes_once {World R O CS : Type} {HS : Summary CS}
    (Summarize : Target -> Asset -> Asset -> World -> World * (CS * CS + error))
    (fmt_v fmt_v' : Asset -> string)
    (t : Target) (rb up : Asset) (h : Host World R O) :
  (Compare Summarize fmt_v t rb up h).1
  = {| world := (Summarize t rb up (world h)).1;
       calls := calls h ++ [SummarizeCall t rb up] |}
  /\ Compare Summarize fmt_v t rb up h = Compare Summarize fmt_v' t rb up h
  /\ (forall e,
        (Compare Summarize fmt_v t rb up h).2.2 = Some e ->
        context e = Some "summarizing assets").
Proof.
  unfold Compare, bind, invoke, ret.
  destruct (Summarize t rb up (world h)) as [w1 [[csRB csUP]|err]]; simpl.
  - pose proof (classifier.compareTwoFiles_err_nil csRB csUP) as Hnil.
    destruct (compareTwoFiles csRB csUP) as [verdict err]. simpl in Hnil.
    subst err. by repeat split.
  - repeat split. by intros e [= <-].
Qed.

Section RebuildMany_more.

Context {World R O Verdict : Type}.
Variable Project_of : string -> World -> World * (Project + error).
Variable FindPureWheel : list Artifact -> Artifact + error.
Variable generic_RebuildMany :
  list (Input R) -> World -> World * (list Verdict + error).

Abbreviation RebuildMany := (RebuildMany Project_of FindPureWheel generic_RebuildMany).
Abbreviation wheel_of project i :=
  (FindPureWheel (release project (Version (InputTarget i)))).

  (** X9. With no input, [RebuildMany] fails with "no inputs provided"
      and calls nothing. With inputs, its first call is the registry
      lookup of the package of the first input, whatever the packages of
      the others are, and what follows is nothing or one call of the
      generic rebuild. *)
Theorem RebuildMany_calls (h : Host World R O) :
  RebuildMany [] h = (h, ([], inr (New "no inputs provided")))
  /\ (forall input0 rest,
        exists more,
          calls (RebuildMany (input0 :: rest) h).1
          = calls h ++ ProjectCall (Package (InputTarget input0)) :: more
          /\ (more = [] \/ exists inputs', more = [RebuildManyCall inputs'])).
Proof.
  split; [done|]. intros input0 rest.
  unfold pypi.RebuildMany, bind, invoke, ret.
  destruct (Project_of _ (world h)) as [w1 [project|err]].
  - destruct (findWheels FindPureWheel project (input0 :: rest))
      as [inputs' [err|]]; simpl.
    + exists []. split; [done | by left].
    + destruct (generic_RebuildMany inputs' w1) as [w2 r]; simpl.
      exists [RebuildManyCall inputs']. split; [by rewrite <- app_assoc | right; eauto].
  - exists []. split; [done | by left].
Qed.

  (** When every input has a wheel, the loop sets the artifact of each
      to the file name of its wheel. *)
Lemma findWheels_all_found (project : Project) (inputs : list (Input R)) :
  Forall (fun i => exists a, wheel_of project i = inl a) inputs ->
  findWheels FindPureWheel project inputs
  = (map (fun i => match wheel_of project i with
                   | inl a => setArtifact i (Filename a)
                   | inr _ => i
                   end) inputs, None).
Proof.
  induction 1 as [|i inputs [a Ha] _ IH]; simpl; [done|].
  by rewrite Ha, IH.
Qed.

  (** X11. When the registry lookup succeeds and [FindPureWheel] finds a
      wheel for the version of every input, [RebuildMany] sets the
      artifact of each input to the file name of its wheel, calls the
      generic rebuild once on the inputs so updated, and returns what
      it returns. *)
Theorem RebuildMany_all_wheels
    (input0 : Input R) (rest : list (Input R)) (h : Host World R O)
    (w1 w2 : World) (project : Project) (r : list Verdict + error) :
  let inputs' := map (fun i => match wheel_of project i with
                               | inl a => setArtifact i (Filename a)
                               | inr _ => i
                               end) (input0 :: rest) in
  Project_of (Package (InputTarget input0)) (world h) = (w1, inl project) ->
  Forall (fun i => exists a, wheel_of project i = inl a) (input0 :: rest) ->
  generic_RebuildMany inputs' w1 = (w2, r) ->
  RebuildMany (input0 :: rest) h
  = ({| world := w2;
        calls := calls h ++ [ProjectCall (Package (InputTarget input0));
                             RebuildManyCall inputs'] |},
     (inputs', r)).
Proof.
  intros inputs' Hlookup Hall Hgeneric.
  unfold pypi.RebuildMany, bind, invoke, ret. rewrite Hlookup.
  cbn -[findWheels]. rewrite (findWheels_all_found project _ Hall).
  fold inputs'. cbn -[inputs']. rewrite Hgeneric. cbn -[inputs'].
  by rewrite <- app_assoc.
Qed.

  (** The loop keeps the number and the order of the inputs and changes
      nothing of an input but the artifact of its target. *)
Lemma findWheels_keeps (project : Project) (inputs : list (Input R)) :
  Forall2 (fun i i' =>
             Ecosystem (InputTarget i') = Ecosystem (InputTarget i)
             /\ Package (InputTarget i') = Package (InputTarget i)
             /\ Version (InputTarget i') = Version (InputTarget i)
             /\ InputRest i' = InputRest i)
          inputs (findWheels FindPureWheel project inputs).1.
Proof.
  induction inputs as [|i inputs IH]; simpl; [constructor|].
  destruct (wheel_of project i) as [a|e]; simpl.
  - destruct (findWheels FindPureWheel project inputs) as [rest' err]. simpl in *.
    by constructor.
  - apply Forall2_same_length_lookup_2; [done|].
    intros k x y Hx Hy. by simplify_eq.
Qed.

  (** X12. Whatever happens, the slice of inputs as the writes of
      [RebuildMany] itself leave it has the length and the order of the
      one it was given, and each input has the ecosystem, package,
      version and other fields it had: only artifacts are written. *)
Theorem RebuildMany_writes_artifacts_only
    (inputs : list (Input R)) (h : Host World R O) :
  Forall2 (fun i i' =>
             Ecosystem (InputTarget i') = Ecosystem (InputTarget i)
             /\ Package (InputTarget i') = Package (InputTarget i)
             /\ Version (InputTarget i') = Version (InputTarget i)
             /\ InputRest i' = InputRest i)
          inputs (RebuildMany inputs h).2.1.
Proof.
  assert (Hsame : forall l : list (Input R),
    Forall2 (fun i i' =>
               Ecosystem (InputTarget i') = Ecosystem (InputTarget i)
               /\ Package (InputTarget i') = Package (InputTarget i)
               /\ Version (InputTarget i') = Version (InputTarget i)
               /\ InputRest i' = InputRest i) l l).
  { induction l; by constructor. }
  unfold pypi.RebuildMany, bind, invoke, ret.
  destruct inputs as [|input0 rest]; [constructor|].
  destruct (Project_of _ (world h)) as [w1 [project|err]]; [|apply Hsame].
  pose proof (findWheels_keeps project (input0 :: rest)) as Hkeeps.
  destruct (findWheels FindPureWheel project (input0 :: rest))
    as [inputs' [err|]]; simpl in *; [done|].
  by destruct (generic_RebuildMany inputs' w1).
Qed.

End RebuildMany_more.

Lemma Compare_summarizes_once_witness :
  context (Wrap (New "asset not found") "summarizing assets")
  = Some "summarizing assets".
Proof.
  pose proof (proj2 (proj2 (Compare_summarizes_once summarize show show absl
                              rebuilt upstream (host0 {["rebuild" := wheel_foo]})))
                (Wrap (New "asset not found") "summarizing assets")) as Hcontext.
  exact (Hcontext ltac:(vm_compute; reflexivity)).
Defined.

Lemma RebuildMany_lookup_failure_witness :
  RebuildMany registry (FindPureWheel_by none_any) rebuild_all
    [requests_2_31; of_version "2.0.0"] (host0 tt)
  = ({| world := tt; calls := [ProjectCall "requests"] |},
     ([requests_2_31; of_version "2.0.0"],
      inr (New "pypi registry error: 404 Not Found"))).
Proof.
  exact (RebuildMany_lookup_failure registry (FindPureWheel_by none_any) rebuild_all
           requests_2_31 [of_version "2.0.0"] (host0 tt) tt
           (New "pypi registry error: 404 Not Found") eq_refl).
Defined.

Lemma RebuildMany_all_wheels_witness :
  RebuildMany registry (FindPureWheel_by none_any) rebuild_all
    [of_version "2.0.0"] (host0 tt)
  = ({| world := tt;
        calls := [ProjectCall "absl-py";
                  RebuildManyCall
                    [setArtifact (of_version "2.0.0") "absl_py-2.0.0-py3-none-any.whl"]] |},
     ([setArtifact (of_version "2.0.0") "absl_py-2.0.0-py3-none-any.whl"],
      inl ["absl_py-2.0.0-py3-none-any.whl"])).
Proof.
  apply (RebuildMany_all_wheels registry (FindPureWheel_by none_any) rebuild_all
           (of_version "2.0.0") [] (host0 tt) tt tt absl_project
           (inl ["absl_py-2.0.0-py3-none-any.whl"])).
  - reflexivity.
  - constructor; [by exists wheel_2_0_0 | constructor].
  - reflexivity.
Defined.

End rebuilder.

(** ** The caching client *)

Module cached_client.

Import state httpx.

Section Do.

Context {World : Type}.
Variable BasicClient_Do : Request -> World -> World * (Response + error).
Variable Write : Response -> string + error.
Variable ReadResponse : string -> Request -> Response + error.
Variable req : Request.
Variable n : Net World.

Abbreviation Do := (Do BasicClient_Do Write ReadResponse).

#[local] Ltac step := cbv [bind ret underlying record store GetOrSet fetch]; simpl.

Lemma method_test :
  negb (String.eqb (Method req) MethodGet) && negb (String.eqb (Method req) MethodHead)
  = bool_decide (Method req <> MethodGet /\ Method req <> MethodHead).
Proof.
  destruct (String.eqb_spec (Method req) MethodGet) as [Hg|Hg],
           (String.eqb_spec (Method req) MethodHead) as [Hh|Hh]; simpl;
    symmetry; (apply bool_decide_eq_true_2 || apply bool_decide_eq_false_2); tauto.
Qed.

  (** A request that is neither GET nor HEAD goes to the underlying
      client and to nothing else. *)
Lemma Do_bypass (w : World) (r : Response + error) :
  Method req <> MethodGet -> Method req <> MethodHead ->
  BasicClient_Do req (world n) = (w, r) ->
  Do req n
  = ({| world := w; entries := entries n; calls := calls n ++ [DoCall req] |},
     Returns r).
Proof.
  intros Hg Hh Hdo. unfold httpx.Do. rewrite method_test.
  rewrite bool_decide_eq_true_2 by done.
  step. by rewrite Hdo.
Qed.

  (** What a GET or HEAD request does, by the cache entry of its URL. *)
Lemma Do_cached :
  Method req = MethodGet \/ Method req = MethodHead ->
  Do req n =
    (r <~ GetOrSet (URL req) (fetch BasicClient_Do Write req);;
     match r with
     | inr err => ret (Returns (inr err))
     | inl (Bytes b) => ret (Returns (ReadResponse b req))
     | inl NotBytes => ret Panics
     end) n.
Proof.
  intros Hm. unfold httpx.Do. rewrite method_test.
  rewrite bool_decide_eq_false_2 by tauto. done.
Qed.

  (** A hit: the stored bytes are parsed anew, the underlying client is
      not called and nothing is stored. *)
Lemma Do_hit (b : string) :
  Method req = MethodGet \/ Method req = MethodHead ->
  entries n !! URL req = Some (Bytes b) ->
  Do req n
  = ({| world := world n; entries := entries n;
        calls := calls n ++ [GetOrSetCall (URL req)] |},
     Returns (ReadResponse b req)).
Proof.
  intros Hm Hhit. rewrite Do_cached by done. step. by rewrite Hhit.
Qed.

  (** A hit on a value that is not a [[]byte] panics. *)
Lemma Do_hit_not_bytes :
  Method req = MethodGet \/ Method req = MethodHead ->
  entries n !! URL req = Some NotBytes ->
  (Do req n).2 = Panics.
Proof.
  intros Hm Hhit. rewrite Do_cached by done. step. by rewrite Hhit.
Qed.

  (** A miss on which the underlying client fails: its error is
      returned and nothing is stored. *)
Lemma Do_miss_failure (w : World) (err : error) :
  Method req = MethodGet \/ Method req = MethodHead ->
  entries n !! URL req = None ->
  BasicClient_Do req (world n) = (w, inr err) ->
  Do req n
  = ({| world := w; entries := entries n;
        calls := calls n ++ [GetOrSetCall (URL req)] ++ [DoCall req] |},
     Returns (inr err)).
Proof.
  intros Hm Hmiss Hdo. rewrite Do_cached by done. step.
  rewrite Hmiss, Hdo. simpl. by rewrite <- app_assoc.
Qed.

  (** A miss answered with another status than 200: the status is
      returned as an error and nothing is stored. *)
Lemma Do_miss_status (w : World) (resp : Response) :
  Method req = MethodGet \/ Method req = MethodHead ->
  entries n !! URL req = None ->
  BasicClient_Do req (world n) = (w, inl resp) ->
  StatusCode resp <> StatusOK ->
  Do req n
  = ({| world := w; entries := entries n;
        calls := calls n ++ [GetOrSetCall (URL req)] ++ [DoCall req] |},
     Returns (inr (New (Status resp)))).
Proof.
  intros Hm Hmiss Hdo Hstatus. rewrite Do_cached by done. step.
  rewrite Hmiss, Hdo. simpl.
  apply Z.eqb_neq in Hstatus. rewrite Hstatus. simpl. by rewrite <- app_assoc.
Qed.

  (** A miss answered with status 200: the wire form of the response is
      stored under the URL, and what is returned is parsed from it. *)
Lemma Do_miss_stored (w : World) (resp : Response) (b : string) :
  Method req = MethodGet \/ Method req = MethodHead ->
  entries n !! URL req = None ->
  BasicClient_Do req (world n) = (w, inl resp) ->
  StatusCode resp = StatusOK ->
  Write resp = inl b ->
  Do req n
  = ({| world := w; entries := <[URL req := Bytes b]> (entries n);
        calls := calls n ++ [GetOrSetCall (URL req)] ++ [DoCall req] |},
     Returns (ReadResponse b req)).
Proof.
  intros Hm Hmiss Hdo Hstatus Hwire. rewrite Do_cached by done. step.
  rewrite Hmiss, Hdo. simpl.
  apply Z.eqb_eq in Hstatus. rewrite Hstatus, Hwire. simpl. by rewrite <- app_assoc.
Qed.

  (** A miss answered with status 200 that cannot be written out: the
      error is returned and nothing is stored. *)
Lemma Do_miss_unwritable (w : World) (resp : Response) (err : error) :
  Method req = MethodGet \/ Method req = MethodHead ->
  entries n !! URL req = None ->
  BasicClient_Do req (world n) = (w, inl resp) ->
  StatusCode resp = StatusOK ->
  Write resp = inr err ->
  Do req n
  = ({| world := w; entries := entries n;
        calls := calls n ++ [GetOrSetCall (URL req)] ++ [DoCall req] |},
     Returns (inr err)).
Proof.
  intros Hm Hmiss Hdo Hstatus Hwire. rewrite Do_cached by done. step.
  rewrite Hmiss, Hdo. simpl.
  apply Z.eqb_eq in Hstatus. rewrite Hstatus, Hwire. simpl. by rewrite <- app_assoc.
Qed.

  (** C8. [CachedClient.Do] sends a request that is neither GET nor HEAD
      to the underlying client and does not touch the cache. For a GET
      or HEAD request it asks the cache, under the request's URL: on a
      hit the stored bytes are parsed into the response that is
      returned, and the underlying client is not called; on a miss the
      underlying client is called, a response with another status than
      200 is returned as an error and nothing is stored, and for a
      response with status 200 its wire form is stored and the response
      that is returned is parsed from it. *)
Theorem Do_caches_GET_and_HEAD_only :
  (Method req <> MethodGet -> Method req <> MethodHead ->
   forall w r,
     BasicClient_Do req (world n) = (w, r) ->
     Do req n
     = ({| world := w; entries := entries n; calls := calls n ++ [DoCall req] |},
        Returns r))
  /\ (Method req = MethodGet \/ Method req = MethodHead ->
      (forall b,
         entries n !! URL req = Some (Bytes b) ->
         Do req n
         = ({| world := world n; entries := entries n;
               calls := calls n ++ [GetOrSetCall (URL req)] |},
            Returns (ReadResponse b req)))
      /\ (forall w resp,
            entries n !! URL req = None ->
            BasicClient_Do req (world n) = (w, inl resp) ->
            StatusCode resp <> StatusOK ->
            Do req n
            = ({| world := w; entries := entries n;
                  calls := calls n ++ [GetOrSetCall (URL req)] ++ [DoCall req] |},
               Returns (inr (New (Status resp)))))
      /\ (forall w resp b,
            entries n !! URL req = None ->
            BasicClient_Do req (world n) = (w, inl resp) ->
            StatusCode resp = StatusOK ->
            Write resp = inl b ->
            Do req n
            = ({| world := w; entries := <[URL req := Bytes b]> (entries n);
                  calls := calls n ++ [GetOrSetCall (URL req)] ++ [DoCall req] |},
               Returns (ReadResponse b req)))).
Proof.
  split; [|intros Hm; split; [|split]].
  - intros Hg Hh w r. by apply Do_bypass.
  - intros b. by apply Do_hit.
  - intros w resp. by apply Do_miss_status.
  - intros w resp b. by apply Do_miss_stored.
Qed.

End Do.

(** *** Every path of [CachedClient.Do] *)

Section Paths.

Context {World : Type}.
Variable BasicClient_Do : Request -> World -> World * (Response + error).
Variable Write : Response -> string + error.
Variable ReadResponse : string -> Request -> Response + error.

Abbreviation Do := (Do BasicClient_Do Write ReadResponse).

#[local] Ltac step := cbv [bind ret underlying record store GetOrSet fetch]; simpl.

#[local] Ltac paths req n :=
  unfold httpx.Do;
  destruct (negb (String.eqb (Method req) MethodGet)
            && negb (String.eqb (Method req) MethodHead)) eqn:Hmethod;
  step;
  [ destruct (BasicClient_Do req (world n)) as [w r] eqn:Hdo; simpl
  | destruct (entries n !! URL req) as [[b|]|] eqn:Hentry; simpl;
    [ | | destruct (BasicClient_Do req (world n)) as [w [resp|err]] eqn:Hdo; simpl;
          [ destruct (StatusCode resp =? StatusOK) eqn:Hstatus; simpl;
            [ destruct (Write resp) as [b|err] eqn:Hwire; simpl | ]
          | ] ] ].

  (** X16. On a miss, an error of the underlying client and an error of
      writing the response out are returned as they are, and nothing is
      stored. *)
Theorem Do_failures_not_stored (req : Request) (n : Net World) :
  Method req = MethodGet \/ Method req = MethodHead ->
  entries n !! URL req = None ->
  (forall w err,
     BasicClient_Do req (world n) = (w, inr err) ->
     Do req n
     = ({| world := w; entries := entries n;
           calls := calls n ++ [GetOrSetCall (URL req)] ++ [DoCall req] |},
        Returns (inr err)))
  /\ (forall w resp err,
        BasicClient_Do req (world n) = (w, inl resp) ->
        StatusCode resp = StatusOK ->
        Write resp = inr err ->
        Do req n
        = ({| world := w; entries := entries n;
              calls := calls n ++ [GetOrSetCall (URL req)] ++ [DoCall req] |},
           Returns (inr err))).
Proof.
  intros Hm Hmiss. split.
  - intros w err. by apply Do_miss_failure.
  - intros w resp err. by apply Do_miss_unwritable.
Qed.

  (** On a miss the underlying client is called, once, whatever it
      answers. *)
Lemma Do_miss_calls (req : Request) (n : Net World) :
  Method req = MethodGet \/ Method req = MethodHead ->
  entries n !! URL req = None ->
  calls (Do req n).1 = calls n ++ [GetOrSetCall (URL req); DoCall req]
  /\ world (Do req n).1 = (BasicClient_Do req (world n)).1.
Proof.
  intros Hm Hmiss. rewrite Do_cached by done. step. rewrite Hmiss.
  destruct (BasicClient_Do req (world n)) as [w [resp|err]]; simpl.
  - destruct (StatusCode resp =? StatusOK); simpl;
      [destruct (Write resp); simpl|]; by rewrite <- app_assoc.
  - by rewrite <- app_assoc.
Qed.

  (** X17. A response with another status than 200 is not remembered:
      the same request, sent again, misses again and goes to the
      underlying client again. *)
Theorem Do_retries_after_status (req : Request) (n : Net World)
    (w : World) (resp : Response) :
  Method req = MethodGet \/ Method req = MethodHead ->
  entries n !! URL req = None ->
  BasicClient_Do req (world n) = (w, inl resp) ->
  StatusCode resp <> StatusOK ->
  entries (Do req n).1 !! URL req = None
  /\ calls (Do req (Do req n).1).1
     = calls n ++ [GetOrSetCall (URL req); DoCall req;
                   GetOrSetCall (URL req); DoCall req]
  /\ world (Do req (Do req n).1).1 = (BasicClient_Do req w).1.
Proof.
  intros Hm Hmiss Hdo Hstatus.
  rewrite (Do_miss_status BasicClient_Do Write ReadResponse req n w resp) by done.
  simpl. split; [done|].
  match goal with |- context [Do req ?n1] =>
    destruct (Do_miss_calls req n1 Hm Hmiss) as [Hcalls Hworld] end.
  rewrite Hcalls, Hworld. simpl. by rewrite <- !app_assoc.
Qed.

  (** X18. The cache key is the URL alone: once a response is stored, a
      GET or HEAD request for the same URL, whatever its method, is
      answered from the stored bytes and the underlying client is not
      called again. *)
Theorem Do_answers_same_URL (req req' : Request) (n : Net World)
    (w : World) (resp : Response) (b : string) :
  Method req = MethodGet \/ Method req = MethodHead ->
  Method req' = MethodGet \/ Method req' = MethodHead ->
  URL req' = URL req ->
  entries n !! URL req = None ->
  BasicClient_Do req (world n) = (w, inl resp) ->
  StatusCode resp = StatusOK ->
  Write resp = inl b ->
  Do req' (Do req n).1
  = ({| world := w; entries := <[URL req := Bytes b]> (entries n);
        calls := calls n ++ [GetOrSetCall (URL req); DoCall req; GetOrSetCall (URL req)] |},
     Returns (ReadResponse b req')).
Proof.
  intros Hm Hm' HURL Hmiss Hdo Hstatus Hwire.
  rewrite (Do_miss_stored BasicClient_Do Write ReadResponse req n w resp b) by done.
  simpl.
  rewrite (Do_hit BasicClient_Do Write ReadResponse req' _ b);
    [|done|by rewrite HURL; apply lookup_insert_eq].
  simpl. by rewrite HURL, <- !app_assoc.
Qed.

  (** X19. A cached value that is not a [[]byte] makes [Do] panic,
      before the underlying client is called; the cache is left as it
      was. *)
Theorem Do_panics_on_foreign_entry (req : Request) (n : Net World) :
  Method req = MethodGet \/ Method req = MethodHead ->
  entries n !! URL req = Some NotBytes ->
  Do req n
  = ({| world := world n; entries := entries n;
        calls := calls n ++ [GetOrSetCall (URL req)] |}, Panics).
Proof.
  intros Hm Hhit. rewrite Do_cached by done. step. by rewrite Hhit.
Qed.

  (** X21. One call of [Do] makes at most one call of the underlying
      client, with the request it was given, and at most one call of
      the cache, with the URL of the request and before the underlying
      client; when the underlying client is not called, the world is as
      it was. *)
Theorem Do_calls (req : Request) (n : Net World) :
  (calls (Do req n).1 = calls n ++ [DoCall req])
  \/ (calls (Do req n).1 = calls n ++ [GetOrSetCall (URL req)]
      /\ world (Do req n).1 = world n)
  \/ (calls (Do req n).1 = calls n ++ [GetOrSetCall (URL req); DoCall req]).
Proof.
  paths req n; rewrite <- ?app_assoc; auto.
Qed.

End Paths.

  (** Once a response is stored, the same request is answered from the
      cache: the underlying client is called once for the two. *)
Lemma Do_twice {World : Type}
    (BasicClient_Do : Request -> World -> World * (Response + error))
    (Write : Response -> string + error)
    (ReadResponse : string -> Request -> Response + error)
    (req : Request) (n : Net World) (w : World) (resp : Response) (b : string) :
  Method req = MethodGet \/ Method req = MethodHead ->
  entries n !! URL req = None ->
  BasicClient_Do req (world n) = (w, inl resp) ->
  StatusCode resp = StatusOK ->
  Write resp = inl b ->
  Do BasicClient_Do Write ReadResponse req
     (Do BasicClient_Do Write ReadResponse req n).1
  = ({| world := w; entries := <[URL req := Bytes b]> (entries n);
        calls := calls n ++ [GetOrSetCall (URL req); DoCall req; GetOrSetCall (URL req)] |},
     Returns (ReadResponse b req)).
Proof.
  intros Hm Hmiss Hdo Hstatus Hwire.
  rewrite (Do_miss_stored BasicClient_Do Write ReadResponse req n w resp b) by done.
  simpl.
  rewrite (Do_hit BasicClient_Do Write ReadResponse req _ b);
    [|done|by apply lookup_insert_eq].
  simpl. by rewrite <- !app_assoc.
Qed.

Import samples.

Lemma Do_caches_GET_and_HEAD_only_witness :
  Do origin wire unwire (post absl_json) net0
  = ({| world := [post absl_json]; entries := ∅; calls := [DoCall (post absl_json)] |},
     Returns (inl {| Status := "200 OK"; StatusCode := 200; Body := "{}" |}))
  /\ Do origin wire unwire (get absl_json) net1
     = ({| world := []; entries := entries net1; calls := [GetOrSetCall absl_json] |},
        Returns (unwire "HTTP/1.1 200 OK {}" (get absl_json)))
  /\ Do origin wire unwire (get "https://pypi.org/pypi/absl-py/0.0.0/json") net0
     = ({| world := [get "https://pypi.org/pypi/absl-py/0.0.0/json"]; entries := ∅;
           calls := [GetOrSetCall "https://pypi.org/pypi/absl-py/0.0.0/json";
                     DoCall (get "https://pypi.org/pypi/absl-py/0.0.0/json")] |},
        Returns (inr (New "404 Not Found")))
  /\ Do origin wire unwire (get absl_json) net0
     = ({| world := [get absl_json];
           entries := <[absl_json := Bytes "HTTP/1.1 200 OK {}"]> ∅;
           calls := [GetOrSetCall absl_json; DoCall (get absl_json)] |},
        Returns (unwire "HTTP/1.1 200 OK {}" (get absl_json))).
Proof.
  split; [|split; [|split]].
  - exact (proj1 (Do_caches_GET_and_HEAD_only origin wire unwire (post absl_json) net0)
             ltac:(discriminate) ltac:(discriminate)
             [post absl_json] _ eq_refl).
  - pose proof (proj1 (proj2 (Do_caches_GET_and_HEAD_only origin wire unwire
                   (get absl_json) net1) (or_introl eq_refl))
                  "HTTP/1.1 200 OK {}") as Hhit.
    exact (Hhit ltac:(vm_compute; reflexivity)).
  - exact (proj1 (proj2 (proj2 (Do_caches_GET_and_HEAD_only origin wire unwire
             (get "https://pypi.org/pypi/absl-py/0.0.0/json") net0) (or_introl eq_refl)))
             [get "https://pypi.org/pypi/absl-py/0.0.0/json"]
             {| Status := "404 Not Found"; StatusCode := 404; Body := "" |}
             eq_refl eq_refl ltac:(discriminate)).
  - exact (proj2 (proj2 (proj2 (Do_caches_GET_and_HEAD_only origin wire unwire
             (get absl_json) net0) (or_introl eq_refl)))
             [get absl_json]
             {| Status := "200 OK"; StatusCode := 200; Body := "{}" |}
             "HTTP/1.1 200 OK {}" eq_refl eq_refl eq_refl eq_refl).
Defined.

Lemma Do_failures_not_stored_witness :
  Do offline wire unwire (get absl_json) net0
  = ({| world := []; entries := ∅;
        calls := [GetOrSetCall absl_json; DoCall (get absl_json)] |},
     Returns (inr (New "dial tcp: connect: connection refused")))
  /\ Do origin unwritable unwire (get absl_json) net0
     = ({| world := [get absl_json]; entries := ∅;
           calls := [GetOrSetCall absl_json; DoCall (get absl_json)] |},
        Returns (inr (New "http: Request.ContentLength=2 with Body length 0"))).
Proof.
  split.
  - exact (proj1 (Do_failures_not_stored offline wire unwire (get absl_json) net0
                    (or_introl eq_refl) eq_refl)
             [] (New "dial tcp: connect: connection refused") eq_refl).
  - exact (proj2 (Do_failures_not_stored origin unwritable unwire (get absl_json) net0
                    (or_introl eq_refl) eq_refl)
             [get absl_json]
             {| Status := "200 OK"; StatusCode := 200; Body := "{}" |}
             (New "http: Request.ContentLength=2 with Body length 0")
             eq_refl eq_refl eq_refl).
Defined.

Lemma Do_retries_after_status_witness :
  calls (Do origin wire unwire (get absl_0_0_0_json)
           (Do origin wire unwire (get absl_0_0_0_json) net0).1).1
  = [GetOrSetCall absl_0_0_0_json; DoCall (get absl_0_0_0_json);
     GetOrSetCall absl_0_0_0_json; DoCall (get absl_0_0_0_json)].
Proof.
  exact (proj1 (proj2 (Do_retries_after_status origin wire unwire
                         (get absl_0_0_0_json) net0 [get absl_0_0_0_json]
                         {| Status := "404 Not Found"; StatusCode := 404; Body := "" |}
                         (or_introl eq_refl) eq_refl eq_refl ltac:(discriminate)))).
Defined.

Lemma Do_answers_same_URL_witness :
  Do origin wire unwire (head absl_json)
     (Do origin wire unwire (get absl_json) net0).1
  = ({| world := [get absl_json];
        entries := <[absl_json := Bytes "HTTP/1.1 200 OK {}"]> ∅;
        calls := [GetOrSetCall absl_json; DoCall (get absl_json);
                  GetOrSetCall absl_json] |},
     Returns (unwire "HTTP/1.1 200 OK {}" (head absl_json))).
Proof.
  exact (Do_answers_same_URL origin wire unwire (get absl_json) (head absl_json) net0
           [get absl_json] {| Status := "200 OK"; StatusCode := 200; Body := "{}" |}
           "HTTP/1.1 200 OK {}"
           (or_introl eq_refl) (or_intror eq_refl) eq_refl eq_refl eq_refl eq_refl
           eq_refl).
Defined.

Lemma Do_panics_on_foreign_entry_witness :
  Do origin wire unwire (get absl_json) net_foreign
  = ({| world := []; entries := entries net_foreign;
        calls := [GetOrSetCall absl_json] |}, Panics).
Proof.
  pose proof (Do_panics_on_foreign_entry origin wire unwire (get absl_json) net_foreign
                (or_introl eq_refl)) as Hpanic.
  exact (Hpanic ltac:(vm_compute; reflexivity)).
Defined.

End cached_client.

(** ** The User-Agent client *)

Module user_agent.

Import state httpx WithUserAgent.

Section Agents.

Context {World : Type}.
Variable BasicClient_Do : Request -> M (Conn World) (outcome (Response + error)).

  (** X13. On a request with a header map, [WithUserAgent.Do] hands the
      request to the embedded client with [User-Agent] set to its own
      agent and to nothing else, whatever values the caller had put
      there, and with every other header as it was; what it returns is
      what the embedded client returns. *)
Theorem Do_sets_User_Agent (UserAgent : string) (req : Request)
    (c : Conn World) (h : gmap string (list string)) :
  header c = Some h ->
  exists h' : gmap string (list string),
    Do BasicClient_Do UserAgent req c
    = BasicClient_Do req {| header := Some h'; net := net c |}
    /\ h' !! "User-Agent" = Some [UserAgent]
    /\ (forall key, key <> "User-Agent" -> h' !! key = h !! key).
Proof.
  intros Hh. exists (<["User-Agent" := [UserAgent]]> h).
  unfold Do, bind, Header_Set, ret. rewrite Hh. split; [done|]. split.
  - apply lookup_insert_eq.
  - intros key Hkey. by apply lookup_insert_ne.
Qed.

  (** X14. On a request whose header map is nil, [WithUserAgent.Do]
      panics, and the embedded client, whatever it is, is not called. *)
Theorem Do_panics_on_nil_header (UserAgent : string) (req : Request)
    (c : Conn World) :
  header c = None ->
  Do BasicClient_Do UserAgent req c = (c, Panics).
Proof.
  intros Hh. unfold Do, bind, Header_Set, ret. by rewrite Hh.
Qed.

  (** X15. Of two User-Agent clients around one another, the inner one
      decides: the agent that the outer one sets is replaced before the
      request leaves. *)
Theorem Do_inner_agent_wins (outer inner : string) (req : Request) (c : Conn World) :
  Do (Do BasicClient_Do inner) outer req c = Do BasicClient_Do inner req c.
Proof.
  unfold Do, bind, Header_Set, ret.
  destruct (header c) as [h|] eqn:Hh; simpl; [|done].
  by rewrite insert_insert_eq.
Qed.

End Agents.

Import samples.

Lemma Do_sets_User_Agent_witness :
  exists h' : gmap string (list string),
    Do echo_agent "oss-rebuild-bot/0.0.0" (get absl_json)
       {| header := Some {["User-Agent" := ["curl/8.5.0"; "Go-http-client/1.1"];
                           "Accept" := ["application/json"]]};
          net := tt |}
    = echo_agent (get absl_json) {| header := Some h'; net := tt |}
    /\ h' !! "User-Agent" = Some ["oss-rebuild-bot/0.0.0"]
    /\ (forall key, key <> "User-Agent" ->
        h' !! key
        = ({["User-Agent" := ["curl/8.5.0"; "Go-http-client/1.1"];
             "Accept" := ["application/json"]]} : gmap string (list string)) !! key).
Proof.
  exact (Do_sets_User_Agent echo_agent "oss-rebuild-bot/0.0.0" (get absl_json)
           {| header := Some {["User-Agent" := ["curl/8.5.0"; "Go-http-client/1.1"];
                               "Accept" := ["application/json"]]};
              net := tt |}
           _ eq_refl).
Defined.

Lemma Do_panics_on_nil_header_witness :
  Do echo_agent "oss-rebuild-bot/0.0.0" (get absl_json) {| header := None; net := tt |}
  = ({| header := None; net := tt |}, Panics).
Proof.
  exact (Do_panics_on_nil_header echo_agent "oss-rebuild-bot/0.0.0" (get absl_json)
           {| header := None; net := tt |} eq_refl).
Defined.

End user_agent.
